(** * Emote: face-localisation-to-classification pipeline (src/src/App.tsx)

    A shallow embedding of the [Emote] React component: its state, the two
    event handlers [handleImageUpload] and [detectEmotion], and the part of
    the render function that filters, sorts and prints the predictions.

    JavaScript numbers are idealised as exact rationals ([Q]): rounding,
    NaN and the infinities of binary64 are outside the model.  The module
    [Binary64] at the end of the definitions replays the ranking on
    primitive binary64 floats for concrete vectors. *)

From Stdlib Require Import List String Ascii ZArith QArith Qround Lia Lqa Bool.
From Stdlib Require Import Sorting.Sorted Sorting.Permutation.
From Stdlib Require Import Floats.
Import ListNotations.

Set Warnings "-inexact-float".
Local Open Scope Q_scope.

(** ** JavaScript array helpers *)

(** [xs.map((x, idx) => f(x, idx))]. *)
Fixpoint mapi_from {A B : Type} (f : A -> nat -> B) (idx : nat) (xs : list A)
  : list B :=
  match xs with
  | [] => []
  | x :: xs' => f x idx :: mapi_from f (S idx) xs'
  end.

Definition mapi {A B : Type} (f : A -> nat -> B) (xs : list A) : list B :=
  mapi_from f 0 xs.

(** [xs.sort(comparefn)].  ECMAScript requires the sort to be stable; for a
    consistent comparator the result is then unique, and it is computed here
    by insertion from the right: [x] moves behind [y] only when
    [comparefn(x, y) > 0]. *)
Fixpoint insertBy {A : Type} (comparefn : A -> A -> Q) (x : A) (xs : list A)
  : list A :=
  match xs with
  | [] => [x]
  | y :: ys =>
      if Qlt_le_dec 0 (comparefn x y)
      then y :: insertBy comparefn x ys
      else x :: y :: ys
  end.

Definition sortBy {A : Type} (comparefn : A -> A -> Q) (xs : list A) : list A :=
  fold_right (insertBy comparefn) [] xs.

(** ** Emotion predictions and their ranking *)

(** [interface EmotionPrediction].  [emotion] is [emotions[idx]], which is
    [undefined] ([None]) when [idx] is past the end of the label table. *)
Record EmotionPrediction := mkPrediction {
  emotion : option string;
  probability : Q
}.

Definition emotions : list string :=
  ["Angry"; "Disgust"; "Fear"; "Happy"; "Neutral"; "Sad"; "Surprised"]%string.

(** [predictions[0].map((prob, idx) => ({emotion: emotions[idx],
    probability: prob * 100}))] *)
Definition emotionResults (raw : list Q) : list EmotionPrediction :=
  mapi (fun prob idx =>
          {| emotion := nth_error emotions idx; probability := prob * 100 |})
       raw.

(** [({ probability }) => probability > 0.0001] *)
Definition visible (e : EmotionPrediction) : bool :=
  if Qlt_le_dec 0.0001 (probability e) then true else false.

(** [(a, b) => b.probability - a.probability] *)
Definition byProbabilityDesc (a b : EmotionPrediction) : Q :=
  probability b - probability a.

(** [emotionPredictions.filter(...).sort(...)], the list the render function
    maps to paragraphs. *)
Definition displayed (eps : list EmotionPrediction) : list EmotionPrediction :=
  sortBy byProbabilityDesc (filter visible eps).

(** The ranked result of a raw classifier vector. *)
Definition ranked (raw : list Q) : list EmotionPrediction :=
  displayed (emotionResults raw).

(** *** [Number.prototype.toFixed(2)]

    The integer [n] for which [n / 100 - x] is closest to zero, the larger
    one on a tie, printed with two fraction digits.  (Values of magnitude
    [1e21] and above, which JavaScript prints in exponent form, are not
    distinguished.) *)
Definition digit (d : Z) : string :=
  String (ascii_of_nat (48 + Z.to_nat d)) EmptyString.

Fixpoint digits_fuel (fuel : nat) (n : Z) (acc : string) : string :=
  match fuel with
  | O => acc
  | S fuel' =>
      let acc' := (digit (n mod 10) ++ acc)%string in
      if (n / 10 =? 0)%Z then acc' else digits_fuel fuel' (n / 10)%Z acc'
  end.

Definition decimal (n : Z) : string :=
  digits_fuel (S (Z.to_nat (Z.log2 n))) n EmptyString.

Definition toFixed2 (x : Q) : string :=
  let neg := if Qlt_le_dec x 0 then true else false in
  let ax := if neg then - x else x in
  let n := Qfloor (ax * 100 + (1 # 2)) in
  ((if neg then "-" else "") ++
   decimal (n / 100) ++ "." ++ digit ((n / 10) mod 10) ++ digit (n mod 10))%string.

(** One rendered line, [{emotion}: {probability.toFixed(2)}%] (the glyph
    looked up in [emotionEmojis] is presentation only and left out). *)
Definition line (e : EmotionPrediction) : option string * string :=
  (emotion e, toFixed2 (probability e)).

(** *** Reading the ranking by index *)

(** The entry built for index [i] of [raw]. *)
Definition entry (raw : list Q) (i : nat) : EmotionPrediction :=
  {| emotion := nth_error emotions i; probability := nth i raw 0 * 100 |}.

(** Index [i] is ranked ahead of index [j]: strictly larger probability, or
    the same probability and an earlier position. *)
Definition ahead (raw : list Q) (i j : nat) : Prop :=
  probability (entry raw j) < probability (entry raw i) \/
  (probability (entry raw i) == probability (entry raw j) /\ (i < j)%nat).

(** The comparator of the render function read on indices, and the indices
    of the ranked entries in display order. *)
Definition byIndex (raw : list Q) (i j : nat) : Q :=
  byProbabilityDesc (entry raw i) (entry raw j).

Definition ranking (raw : list Q) : list nat :=
  sortBy (byIndex raw)
    (filter (fun i => visible (entry raw i)) (seq 0 (List.length raw))).

(** ** Browser collaborators *)

(** Exceptions that reach the [catch] block of [detectEmotion]. *)
Inductive Exn :=
| TypeError
| IndexSizeError
| ModelError (msg : string).

(** [ImageData]: [data] holds [4 * width * height] bytes, RGBA, row-major. *)
Record ImageData := mkImageData {
  width : nat;
  height : nat;
  data : list Z
}.

(** The [<img>] element behind [imageRef]: its displayed size and the
    pixels [drawImage(img, 0, 0, width, height)] paints. *)
Record HTMLImageElement := mkImage {
  img_width : nat;
  img_height : nat;
  img_pixels : Z -> Z -> list Z
}.

(** The [<canvas>] element behind [canvasRef]; [getContext('2d')] may
    return [null]. *)
Record HTMLCanvasElement := mkCanvas {
  has_2d_context : bool
}.

(** The 2D context once the canvas has been sized and painted. *)
Record Context2D := mkContext {
  canvas_width : nat;
  canvas_height : nat;
  bitmap : Z -> Z -> list Z
}.

(** The rectangle handed to [getImageData(sx, sy, sw, sh)]. *)
Record CropRegion := mkRegion {
  sx : Q;
  sy : Q;
  sw : Q;
  sh : Q
}.

(** Web IDL conversion of a number to [[EnforceRange] long]: truncate
    towards zero; a result outside the signed 32-bit range is a
    [TypeError]. *)
Definition to_long (q : Q) : Exn + Z :=
  let t := if Qlt_le_dec q 0 then Qceiling q else Qfloor q in
  if ((- 2 ^ 31 <=? t) && (t <=? 2 ^ 31 - 1))%Z%bool then inr t
  else inl TypeError.

Definition transparent_black : list Z := [0; 0; 0; 0]%Z.

Definition canvas_pixel (ctx : Context2D) (px py : Z) : list Z :=
  if ((0 <=? px) && (px <? Z.of_nat (canvas_width ctx)) &&
      (0 <=? py) && (py <? Z.of_nat (canvas_height ctx)))%Z%bool
  then bitmap ctx px py
  else transparent_black.

(** [ctx.getImageData(sx, sy, sw, sh)]: an argument out of range throws
    [TypeError]; a zero width or height throws [IndexSizeError]; a
    negative one selects the rectangle on the other side of the corner;
    pixels outside the canvas read as transparent black. *)
Definition getImageData (ctx : Context2D) (r : CropRegion)
  : Exn + ImageData :=
  match to_long (sx r), to_long (sy r), to_long (sw r), to_long (sh r) with
  | inr x, inr y, inr w, inr h =>
      if ((w =? 0) || (h =? 0))%Z%bool then inl IndexSizeError
      else
        let x0 := Z.min x (x + w) in
        let y0 := Z.min y (y + h) in
        let cols := seq 0 (Z.abs_nat w) in
        let rows := seq 0 (Z.abs_nat h) in
        inr {| width := Z.abs_nat w;
               height := Z.abs_nat h;
               data := flat_map (fun j =>
                         flat_map (fun i =>
                           canvas_pixel ctx (x0 + Z.of_nat i) (y0 + Z.of_nat j))
                           cols) rows |}
  | _, _, _, _ => inl TypeError
  end.

(** ** TensorFlow.js operators

    The operators the preprocessing chain calls, as the library documents
    them, on tensors given by a data type, a shape and a value at every
    index.  float32 arithmetic is idealised as exact: the model fixes
    which source values a tensor value is computed from and how, not the
    rounding of the library's kernels, so it supports comparisons between
    runs of the chain and no statement about the digits of a value. *)
Module Tf.

Inductive DType := int32 | float32.

Record Tensor := mkTensor {
  dtype : DType;
  shape : list nat;
  at_ : list nat -> Q
}.

Definition insert_at {A : Type} (axis : nat) (k : A) (ix : list A) : list A :=
  firstn axis ix ++ k :: skipn axis ix.

Definition remove_at {A : Type} (axis : nat) (ix : list A) : list A :=
  firstn axis ix ++ skipn (S axis) ix.

(** [tf.browser.fromPixels(imageData)] with the default three channels:
    the alpha byte of every pixel is dropped. *)
Definition fromPixels (img : ImageData) : Tensor :=
  {| dtype := int32;
     shape := [height img; width img; 3%nat];
     at_ := fun ix =>
       match ix with
       | [r; c; k] =>
           inject_Z (nth (4 * (r * width img + c) + k) (data img) 0%Z)
       | _ => 0
       end |}.

Definition lerp (a b frac : Q) : Q := a + (b - a) * frac.

(** The fractional source coordinate of output coordinate [r]: the size
    ratio times [r]. *)
Definition sourceFrac (oldSize newSize r : nat) : Q :=
  inject_Z (Z.of_nat oldSize) / inject_Z (Z.of_nat newSize)
  * inject_Z (Z.of_nat r).

(** [t.resizeBilinear([newHeight, newWidth])] on a rank-3 tensor, with the
    defaults [alignCorners = false] and [halfPixelCenters = false]: every
    output value interpolates between the four source values around its
    source coordinate.  (The library rejects other ranks; the chain never
    produces one.) *)
Definition resizeBilinear (size : nat * nat) (t : Tensor) : Tensor :=
  let '(newHeight, newWidth) := size in
  match shape t with
  | [oldHeight; oldWidth; channels] =>
      {| dtype := float32;
         shape := [newHeight; newWidth; channels];
         at_ := fun ix =>
           match ix with
           | [r; c; k] =>
               let srcRow := sourceFrac oldHeight newHeight r in
               let rowFloor := Z.max 0 (Qfloor srcRow) in
               let rowCeil := Z.min (Z.of_nat oldHeight - 1) (Qceiling srcRow) in
               let rowFrac := srcRow - inject_Z rowFloor in
               let srcCol := sourceFrac oldWidth newWidth c in
               let colFloor := Z.max 0 (Qfloor srcCol) in
               let colCeil := Z.min (Z.of_nat oldWidth - 1) (Qceiling srcCol) in
               let colFrac := srcCol - inject_Z colFloor in
               let px row col := at_ t [Z.to_nat row; Z.to_nat col; k] in
               let top := lerp (px rowFloor colFloor) (px rowFloor colCeil) colFrac in
               let bottom := lerp (px rowCeil colFloor) (px rowCeil colCeil) colFrac in
               lerp top bottom rowFrac
           | _ => 0
           end |}
  | _ => t
  end.

Definition sum (qs : list Q) : Q := fold_right Qplus 0 qs.

(** [t.mean(axis)]: the arithmetic mean along [axis], which disappears
    from the shape. *)
Definition mean (axis : nat) (t : Tensor) : Tensor :=
  let n := nth axis (shape t) 1%nat in
  {| dtype := float32;
     shape := remove_at axis (shape t);
     at_ := fun ix =>
       sum (map (fun k => at_ t (insert_at axis k ix)) (seq 0 n))
       / inject_Z (Z.of_nat n) |}.

(** [t.toFloat()]: a cast, the values stay as they are. *)
Definition toFloat (t : Tensor) : Tensor :=
  {| dtype := float32; shape := shape t; at_ := at_ t |}.

(** [t.expandDims(axis)]; a negative axis counts from the end of the new
    shape. *)
Definition expandDims (axis : Z) (t : Tensor) : Tensor :=
  let a := Z.to_nat (if (axis <? 0)%Z
                     then Z.of_nat (List.length (shape t)) + 1 + axis
                     else axis)%Z in
  {| dtype := dtype t;
     shape := insert_at a 1%nat (shape t);
     at_ := fun ix => at_ t (remove_at a ix) |}.

End Tf.

(** [tf.browser.fromPixels(faceData).resizeBilinear([48, 48]).mean(2)
      .toFloat().expandDims(0).expandDims(-1)] *)
Definition imageTensor (faceData : ImageData) : Tf.Tensor :=
  Tf.expandDims (-1)
    (Tf.expandDims 0
       (Tf.toFloat
          (Tf.mean 2
             (Tf.resizeBilinear (48%nat, 48%nat)
                (Tf.fromPixels faceData))))).

(** ** Model handles *)

(** One detected face; [landmarks] is the list of [[x, y]] points. *)
Record Face := mkFace {
  landmarks : list (Q * Q)
}.

(** [models.faceDetector]: [estimateFaces] gives the value its promise
    settles with. *)
Record FaceDetector := mkFaceDetector {
  estimateFaces : ImageData -> Exn + list Face
}.

(** [models.emotionDetector]: [predict] gives what [await result.array()]
    yields for the tensor [predict] returned. *)
Record EmotionDetector := mkEmotionDetector {
  predict : Tf.Tensor -> Exn + list (list Q)
}.

Record Models := mkModels {
  faceDetector : option FaceDetector;
  emotionDetector : option EmotionDetector
}.

(** ** Geometry *)

(** [landmarks[i]], a [TypeError] once a coordinate of a missing point is
    read. *)
Definition landmark (lm : list (Q * Q)) (i : nat) : Exn + (Q * Q) :=
  match nth_error lm i with
  | Some p => inr p
  | None => inl TypeError
  end.

(** The three landmarks the geometry reads (nose, right and left
    reference point) and the half side of the square built from them. *)
Definition P_n (lm : list (Q * Q)) : Q * Q := nth 2 lm (0, 0).
Definition P_r (lm : list (Q * Q)) : Q * Q := nth 4 lm (0, 0).
Definition P_l (lm : list (Q * Q)) : Q * Q := nth 5 lm (0, 0).

Definition half (lm : list (Q * Q)) : Q :=
  (fst (P_l lm) - fst (P_r lm)) / 2 + 5.

(** Lines 110-117: the arguments of the cropping [getImageData] call. *)
Definition cropRegion (lm : list (Q * Q)) : Exn + CropRegion :=
  match landmark lm 2, landmark lm 4, landmark lm 5 with
  | inr nose, inr rightPt, inr leftPt =>
      let nosex := fst nose in
      let nosey := snd nose in
      let right := fst rightPt in
      let left := fst leftPt in
      let length := (left - right) / 2 + 5 in
      inr {| sx := nosex - length; sy := nosey - length;
             sw := 2 * length; sh := 2 * length |}
  | _, _, _ => inl TypeError
  end.

(** ** Component state *)

(** The five [useState] cells of [Emote]. *)
Record State := mkState {
  selectedImage : option string;
  prediction : option string;
  emotionPredictions : option (list EmotionPrediction);
  isLoading : bool;
  models : Models
}.

(** The two [useRef] cells; React fills them when the image is mounted. *)
Record Refs := mkRefs {
  imageRef : option HTMLImageElement;
  canvasRef : option HTMLCanvasElement
}.

Definition initialState : State :=
  {| selectedImage := None; prediction := None; emotionPredictions := None;
     isLoading := false;
     models := {| faceDetector := None; emotionDetector := None |} |}.

Definition setSelectedImage (v : option string) (st : State) : State :=
  {| selectedImage := v; prediction := prediction st;
     emotionPredictions := emotionPredictions st;
     isLoading := isLoading st; models := models st |}.

Definition setPrediction (v : option string) (st : State) : State :=
  {| selectedImage := selectedImage st; prediction := v;
     emotionPredictions := emotionPredictions st;
     isLoading := isLoading st; models := models st |}.

Definition setEmotionPredictions (v : option (list EmotionPrediction))
  (st : State) : State :=
  {| selectedImage := selectedImage st; prediction := prediction st;
     emotionPredictions := v;
     isLoading := isLoading st; models := models st |}.

Definition setIsLoading (v : bool) (st : State) : State :=
  {| selectedImage := selectedImage st; prediction := prediction st;
     emotionPredictions := emotionPredictions st;
     isLoading := v; models := models st |}.

Definition setModels (v : Models) (st : State) : State :=
  {| selectedImage := selectedImage st; prediction := prediction st;
     emotionPredictions := emotionPredictions st;
     isLoading := isLoading st; models := v |}.

(** JavaScript truthiness of a [string | null]: [null] and the empty string
    are falsy. *)
Definition truthy (s : option string) : bool :=
  match s with
  | Some EmptyString => false
  | Some _ => true
  | None => false
  end.

Definition present {A : Type} (o : option A) : bool :=
  match o with Some _ => true | None => false end.

(** ** [handleImageUpload] *)

(** [e.target?.result] of the load event: a string or something else. *)
Inductive ReadResult :=
| ResultString (s : string)
| ResultOther.

(** A selected file; [readAsDataURL] is [None] when the read fails, in
    which case [onload] never fires. *)
Record File := mkFile {
  readAsDataURL : option ReadResult
}.

(** [reader.onload] *)
Definition reader_onload (result : ReadResult) (st : State) : State :=
  match result with
  | ResultString s =>
      setPrediction None
        (setEmotionPredictions None
           (setSelectedImage (Some s) st))
  | ResultOther => st
  end.

(** [handleImageUpload], with [file] standing for
    [event.target.files?.[0]]. *)
Definition handleImageUpload (file : option File) (st : State) : State :=
  match file with
  | Some f =>
      match readAsDataURL f with
      | Some result => reader_onload result st
      | None => st
      end
  | None => st
  end.

(** ** [detectEmotion] *)

(** What the handler does to the outside world. *)
Inductive Event :=
| CallGetImageData (r : CropRegion)
| CallEstimateFaces
| CallPredict
| ConsoleInfo (predictions : list (list Q))
| ConsoleError (msg : string) (e : Exn).

(** How a block of statements ends. *)
Inductive Completion (A : Type) :=
| Normal (a : A)
| Return
| Throw (e : Exn).
Arguments Normal {A} a.
Arguments Return {A}.
Arguments Throw {A} e.

(** Statements: they read and update the state cells and log events. *)
Definition M (A : Type) : Type := State -> Completion A * State * list Event.

Definition ret {A : Type} (a : A) : M A := fun st => (Normal a, st, []).

Definition bind {A B : Type} (m : M A) (k : A -> M B) : M B :=
  fun st =>
    match m st with
    | (Normal a, st1, log1) =>
        let '(c, st2, log2) := k a st1 in (c, st2, log1 ++ log2)
    | (Return, st1, log1) => (Return, st1, log1)
    | (Throw e, st1, log1) => (Throw e, st1, log1)
    end.

Notation "x <- m ;; k" := (bind m (fun x => k))
  (at level 61, m at next level, right associativity).
Notation "m ;; k" := (bind m (fun _ => k))
  (at level 61, right associativity).

Definition update (f : State -> State) : M unit :=
  fun st => (Normal tt, f st, []).

Definition emit (ev : Event) : M unit := fun st => (Normal tt, st, [ev]).

Definition early_return {A : Type} : M A := fun st => (Return, st, []).

(** The value of a call, or the exception it throws. *)
Definition lift {A : Type} (r : Exn + A) : M A :=
  fun st =>
    match r with
    | inr a => (Normal a, st, [])
    | inl e => (Throw e, st, [])
    end.

(** [if (!x) return;] *)
Definition or_return {A : Type} (o : option A) : M A :=
  match o with
  | Some a => ret a
  | None => early_return
  end.

(** The promise a suspended call of [detectEmotion] waits for, with the
    value or rejection it settles with and what the continuation has
    captured. *)
Inductive Pending :=
| AwaitFaces (ctx : Context2D) (ed : EmotionDetector)
             (faces : Exn + list Face)
| AwaitArray (predictions : Exn + list (list Q)).

Inductive Step :=
| Await (p : Pending)
| Finished.

(** [canvas.getContext('2d')], the two size assignments and [drawImage]
    of an image that has loaded (an image in the broken state, on which
    [drawImage] throws, is outside the model). *)
Definition getContext (canvas : HTMLCanvasElement) (img : HTMLImageElement)
  : option Context2D :=
  if has_2d_context canvas
  then Some {| canvas_width := img_width img;
               canvas_height := img_height img;
               bitmap := img_pixels img |}
  else None.

Definition wholeCanvas (ctx : Context2D) : CropRegion :=
  {| sx := 0; sy := 0;
     sw := inject_Z (Z.of_nat (canvas_width ctx));
     sh := inject_Z (Z.of_nat (canvas_height ctx)) |}.

(** Lines 88-105: the [try] block up to [await estimateFaces]. *)
Definition untilFaces (refs : Refs) (img : HTMLImageElement)
  (fd : FaceDetector) (ed : EmotionDetector) : M Step :=
  update (setIsLoading true) ;;
  canvas <- or_return (canvasRef refs) ;;
  ctx <- or_return (getContext canvas img) ;;
  emit (CallGetImageData (wholeCanvas ctx)) ;;
  imageData <- lift (getImageData ctx (wholeCanvas ctx)) ;;
  emit CallEstimateFaces ;;
  ret (Await (AwaitFaces ctx ed (estimateFaces fd imageData))).

(** Lines 105-129: from the settled [estimateFaces] to [await
    result.array()]. *)
Definition untilArray (ctx : Context2D) (ed : EmotionDetector)
  (settled : Exn + list Face) : M Step :=
  faces <- lift settled ;;
  match faces with
  | face :: _ =>
      region <- lift (cropRegion (landmarks face)) ;;
      emit (CallGetImageData region) ;;
      faceData <- lift (getImageData ctx region) ;;
      emit CallPredict ;;
      ret (Await (AwaitArray (predict ed (imageTensor faceData))))
  | [] =>
      update (setPrediction (Some "No faces detected"%string)) ;;
      update (setEmotionPredictions None) ;;
      ret Finished
  end.

(** Lines 129-143: from the settled [result.array()] to the end of the
    [try] block. *)
Definition untilEnd (settled : Exn + list (list Q)) : M Step :=
  predictions <- lift settled ;;
  emit (ConsoleInfo predictions) ;;
  row <- lift (match nth_error predictions 0 with
               | Some row => inr row
               | None => inl TypeError
               end) ;;
  update (setEmotionPredictions (Some (emotionResults row))) ;;
  update (setPrediction (Some "Face detected and emotion analyzed!"%string)) ;;
  ret Finished.

(** [try { body } catch (error) { ... } finally { setIsLoading(false) }]
    around one stretch of the body: a stretch that stops at an [await]
    leaves the handlers for later. *)
Definition in_try (body : M Step) (st : State)
  : State * list Event * option Pending :=
  match body st with
  | (Normal (Await p), st1, log) => (st1, log, Some p)
  | (Normal Finished, st1, log) => (setIsLoading false st1, log, None)
  | (Return, st1, log) => (setIsLoading false st1, log, None)
  | (Throw e, st1, log) =>
      (setIsLoading false
         (setPrediction (Some "Error detecting faces"%string) st1),
       log ++ [ConsoleError "Error detecting faces:" e], None)
  end.

(** The state the [catch] and [finally] blocks leave behind, and whether a
    log shows that the [catch] block ran. *)
Definition caught (st : State) : State :=
  setIsLoading false (setPrediction (Some "Error detecting faces"%string) st).

Definition is_console_error (ev : Event) : bool :=
  match ev with ConsoleError _ _ => true | _ => false end.

Definition threw (log : list Event) : bool := existsb is_console_error log.

(** The synchronous start of [detectEmotion]: the guard, then the [try]
    block up to its first [await]. *)
Definition detectEmotion_start (refs : Refs) (st : State)
  : State * list Event * option Pending :=
  match imageRef refs, faceDetector (models st), emotionDetector (models st) with
  | Some img, Some fd, Some ed =>
      if truthy (selectedImage st)
      then in_try (untilFaces refs img fd ed) st
      else (st, [], None)
  | _, _, _ => (st, [], None)
  end.

(** The continuation that runs when the awaited promise settles. *)
Definition resume (p : Pending) (st : State)
  : State * list Event * option Pending :=
  match p with
  | AwaitFaces ctx ed settled => in_try (untilArray ctx ed settled) st
  | AwaitArray settled => in_try (untilEnd settled) st
  end.

(** [detectEmotion] run to its end with nothing else scheduled between its
    stretches. *)
Definition detectEmotion (refs : Refs) (st : State) : State * list Event :=
  match detectEmotion_start refs st with
  | (st1, log1, None) => (st1, log1)
  | (st1, log1, Some p1) =>
      match resume p1 st1 with
      | (st2, log2, None) => (st2, log1 ++ log2)
      | (st2, log2, Some p2) =>
          let '(st3, log3, _) := resume p2 st2 in
          (st3, log1 ++ log2 ++ log3)
      end
  end.

(** ** The render function *)

(** What the view shows: the Detect button, the selected image, and the
    result block with the status string and, when there are predictions,
    their lines. *)
Record View := mkView {
  button_disabled : bool;
  button_label : string;
  image_src : option string;
  result : option (string * option (list (option string * string)))
}.

Definition render (st : State) : View :=
  {| button_disabled :=
       negb (truthy (selectedImage st)) || isLoading st ||
       negb (present (faceDetector (models st))) ||
       negb (present (emotionDetector (models st)));
     button_label :=
       (if isLoading st then "Processing...." else "Detect Emotion")%string;
     image_src :=
       if truthy (selectedImage st) then selectedImage st else None;
     result :=
       match prediction st with
       | Some status =>
           if truthy (prediction st)
           then Some (status,
                      option_map (fun eps => map line (displayed eps))
                                 (emotionPredictions st))
           else None
       | None => None
       end |}.

(** ** The component as a transition system *)

(** The state cells together with the suspended calls of [detectEmotion]. *)
Record Sys := mkSys {
  ui : State;
  inflight : list Pending
}.

Inductive Input :=
| ModelsLoaded (m : Models)      (* [loadModels] reaches [setModels] *)
| Upload (file : option File)    (* the file input changes *)
| Click (refs : Refs)            (* the Detect button is clicked *)
| Settle (n : nat).              (* the promise of the [n]-th suspended call settles *)

Definition option_list {A : Type} (o : option A) : list A :=
  match o with Some a => [a] | None => [] end.

Definition step (s : Sys) (i : Input) : Sys * list Event :=
  match i with
  | ModelsLoaded m =>
      ({| ui := setModels m (ui s); inflight := inflight s |}, [])
  | Upload file =>
      ({| ui := handleImageUpload file (ui s); inflight := inflight s |}, [])
  | Click refs =>
      if button_disabled (render (ui s)) then (s, [])
      else
        let '(st, log, p) := detectEmotion_start refs (ui s) in
        ({| ui := st; inflight := inflight s ++ option_list p |}, log)
  | Settle n =>
      match nth_error (inflight s) n with
      | Some p =>
          let '(st, log, p') := resume p (ui s) in
          ({| ui := st;
              inflight := firstn n (inflight s) ++ option_list p'
                          ++ skipn (S n) (inflight s) |}, log)
      | None => (s, [])
      end
  end.

Definition initialSys : Sys := {| ui := initialState; inflight := [] |}.

(** The state after a sequence of inputs. *)
Definition steps (s : Sys) (inputs : list Input) : Sys :=
  fold_left (fun s' i => fst (step s' i)) inputs s.

Definition is_click (i : Input) : bool :=
  match i with Click _ => true | _ => false end.

Inductive reachable : Sys -> Prop :=
| reachable_initial : reachable initialSys
| reachable_step (s : Sys) (i : Input) :
    reachable s -> reachable (fst (step s i)).

(** At most one call of [detectEmotion] is suspended, and [isLoading] is on
    exactly while one is. *)
Definition loading_tracks_inflight (s : Sys) : Prop :=
  (inflight s = [] /\ isLoading (ui s) = false) \/
  (exists p, inflight s = [p] /\ isLoading (ui s) = true).

(** ** Failure tags

    The failure taxonomy of the specification, and the failure a status
    string of the component stands for: the component has two failure
    messages, and every other status (or none) reports no failure. *)
Inductive Failure :=
| ModelsNotReady
| PipelineBusy
| NoFaceDetected
| InvalidGeometry
| EmptyCropError
| ClassifierOutputShapeError
| ClassifierInvocationError
| DetectionFailed.

Definition failure_of_status (status : option string) : option Failure :=
  match status with
  | Some s =>
      if (s =? "No faces detected")%string then Some NoFaceDetected
      else if (s =? "Error detecting faces")%string then Some DetectionFailed
      else None
  | None => None
  end.

(** ** The ranking on binary64 numbers *)
Module Binary64.

Local Open Scope float_scope.

Record Prediction := mkPrediction64 {
  label : option string;
  percent : float
}.

Definition emotionResults (raw : list float) : list Prediction :=
  mapi (fun prob idx =>
          {| label := nth_error emotions idx; percent := prob * 100 |})
       raw.

Definition visible (e : Prediction) : bool := 0.0001 <? percent e.

Definition byProbabilityDesc (a b : Prediction) : float :=
  percent b - percent a.

(** A comparator result of NaN counts as zero. *)
Fixpoint insertBy {A : Type} (comparefn : A -> A -> float) (x : A)
  (xs : list A) : list A :=
  match xs with
  | [] => [x]
  | y :: ys =>
      if 0 <? comparefn x y
      then y :: insertBy comparefn x ys
      else x :: y :: ys
  end.

Definition sortBy {A : Type} (comparefn : A -> A -> float) (xs : list A)
  : list A :=
  fold_right (insertBy comparefn) [] xs.

Definition ranked (raw : list float) : list Prediction :=
  sortBy byProbabilityDesc (filter visible (emotionResults raw)).

(** The rational a finite binary64 number denotes. *)
Definition exact (f : float) : Q :=
  match Prim2SF f with
  | S754_finite s m e =>
      ((if s then -1 else 1) * inject_Z (Z.pos m) * Qpower 2 e)%Q
  | _ => 0%Q
  end.

Definition line (e : Prediction) : option string * string :=
  (label e, toFixed2 (exact (percent e))).

End Binary64.

(** ** Concrete collaborators and inputs *)

(** A 64x48 image whose red and green bytes follow the pixel position. *)
Definition sampleImage : HTMLImageElement :=
  {| img_width := 64; img_height := 48;
     img_pixels := fun px py => [px mod 256; py mod 256; 128; 255]%Z |}.

Definition sampleRefs : Refs :=
  {| imageRef := Some sampleImage;
     canvasRef := Some {| has_2d_context := true |} |}.

(** Six landmarks in BlazeFace order: right eye, left eye, nose, mouth,
    right ear, left ear. *)
Definition frontalFace : Face :=
  {| landmarks := [(26, 18); (38, 18); (32, 24); (32, 30); (20, 20); (44, 20)] |}.

(** The two ear landmarks coincide. *)
Definition degenerateFace : Face :=
  {| landmarks := [(26, 18); (38, 18); (32, 24); (32, 30); (30, 20); (30, 20)] |}.

Definition detectorReturning (faces : list Face) : FaceDetector :=
  {| estimateFaces := fun _ => inr faces |}.

Definition classifierReturning (rows : list (list Q)) : EmotionDetector :=
  {| predict := fun _ => inr rows |}.

Definition failingClassifier : EmotionDetector :=
  {| predict := fun _ => inl (ModelError "predict failed") |}.

Definition sampleVector : list Q := [0.01; 0.00; 0.00; 0.95; 0.02; 0.01; 0.01].

Definition shortVector : list Q := [0.5; 0.3; 0.2].

Definition longVector : list Q := [0.1; 0.1; 0.1; 0.1; 0.1; 0.1; 0.1; 0.2; 0.1].

(** A state with an image selected and both models loaded. *)
Definition readyState (fd : FaceDetector) (ed : EmotionDetector) : State :=
  {| selectedImage := Some "data:image/png;base64,iVBORw0KGgo="%string;
     prediction := None;
     emotionPredictions := None;
     isLoading := false;
     models := {| faceDetector := Some fd; emotionDetector := Some ed |} |}.

(** The same state after an earlier request that succeeded. *)
Definition shownState (fd : FaceDetector) (ed : EmotionDetector) : State :=
  setPrediction (Some "Face detected and emotion analyzed!"%string)
    (setEmotionPredictions (Some (emotionResults sampleVector))
       (readyState fd ed)).

Definition sampleFile : File :=
  {| readAsDataURL := Some (ResultString "data:image/png;base64,AAAA") |}.

(** Models loaded, a file chosen, the button clicked: the call of
    [detectEmotion] is suspended at [await estimateFaces]. *)
Definition busySys : Sys :=
  fst (step
         (fst (step
                 (fst (step initialSys
                         (ModelsLoaded
                            {| faceDetector := Some (detectorReturning [frontalFace]);
                               emotionDetector := Some (classifierReturning [sampleVector]) |})))
                 (Upload (Some sampleFile))))
         (Click sampleRefs)).

(** A 2x2 crop with every colour byte 200. *)
Definition flatCrop : ImageData :=
  {| width := 2; height := 2;
     data := [200; 200; 200; 255; 200; 200; 200; 255;
              200; 200; 200; 255; 200; 200; 200; 255]%Z |}.

(** ** The rest of the component *)

(** Line 85, the guard of [detectEmotion]: an image is selected, the
    [<img>] is mounted and both models are loaded. *)
Definition guard_passes (refs : Refs) (st : State) : bool :=
  truthy (selectedImage st) && present (imageRef refs) &&
  present (faceDetector (models st)) && present (emotionDetector (models st)).

(** *** [loadModels] (lines 51-67) *)

(** What [loadModels] does to the outside world. *)
Inductive LoadEvent :=
| CallBlazefaceLoad
| CallLoadLayersModel (path : string)
| ConsoleLoadError (msg : string) (e : Exn).

(** [loadModels], given what the two loaders' promises settle with.  The
    state is written once, by [setModels], after both [await]s. *)
Definition loadModels (blazeface_load : Exn + FaceDetector)
  (loadLayersModel : string -> Exn + EmotionDetector) (st : State)
  : State * list LoadEvent :=
  match blazeface_load with
  | inr faceModel =>
      match loadLayersModel "model/model.json"%string with
      | inr emotionModel =>
          (setModels {| faceDetector := Some faceModel;
                        emotionDetector := Some emotionModel |} st,
           [CallBlazefaceLoad; CallLoadLayersModel "model/model.json"])
      | inl e =>
          (st, [CallBlazefaceLoad; CallLoadLayersModel "model/model.json";
                ConsoleLoadError "Error loading models:" e])
      end
  | inl e =>
      (st, [CallBlazefaceLoad; ConsoleLoadError "Error loading models:" e])
  end.

(** *** The glyph table (lines 25-33) *)

Definition bytes (codes : list nat) : string :=
  fold_right (fun n s => String (ascii_of_nat n) s) EmptyString codes.

(** [emotionEmojis], the values byte for byte as the source file has
    them. *)
Definition emotionEmojis : list (string * string) :=
  [("Angry"%string, bytes [239; 163; 191; 195; 188; 195; 178; 226; 128; 160]%nat);
   ("Disgust"%string, bytes [239; 163; 191; 195; 188; 194; 167; 194; 162]%nat);
   ("Fear"%string, bytes [239; 163; 191; 195; 188; 195; 178; 194; 174]%nat);
   ("Happy"%string, bytes [239; 163; 191; 195; 188; 195; 178; 195; 164]%nat);
   ("Neutral"%string, bytes [239; 163; 191; 195; 188; 195; 178; 195; 170]%nat);
   ("Sad"%string, bytes [239; 163; 191; 195; 188; 195; 178; 194; 162]%nat);
   ("Surprised"%string, bytes [239; 163; 191; 195; 188; 195; 178; 195; 134]%nat)].

(** [table[key]] on an object used as a map. *)
Fixpoint lookup (key : string) (table : list (string * string))
  : option string :=
  match table with
  | [] => None
  | (k, v) :: rest => if (k =? key)%string then Some v else lookup key rest
  end.

(** [emotionEmojis[emotion]]; an [undefined] key finds nothing. *)
Definition glyph (e : EmotionPrediction) : option string :=
  match emotion e with
  | Some label => lookup label emotionEmojis
  | None => None
  end.

(** *** More concrete inputs *)

Definition profileFace : Face :=
  {| landmarks := [(26, 18); (38, 18); (32, 24)] |}.

Definition otherFile : File :=
  {| readAsDataURL := Some (ResultString "data:image/png;base64,BBBB") |}.

(** The status strings the component ever sets. *)
Definition known_status (status : option string) : Prop :=
  status = None \/
  status = Some "No faces detected"%string \/
  status = Some "Error detecting faces"%string \/
  status = Some "Face detected and emotion analyzed!"%string.

(** A call of [detectEmotion] suspended at [await result.array()], reached
    from [busySys] when the localizer's promise settles. *)
Definition classifyingSys : Sys := fst (step busySys (Settle 0)).

(** Models loaded and a file chosen, nothing under way. *)
Definition idleSys : Sys :=
  fst (step
         (fst (step initialSys
                 (ModelsLoaded
                    {| faceDetector := Some (detectorReturning [frontalFace]);
                       emotionDetector := Some (classifierReturning [sampleVector]) |})))
         (Upload (Some sampleFile))).

(** A state with the results of an earlier request on display and nothing
    under way. *)
Definition shownSys : Sys :=
  {| ui := shownState (detectorReturning [frontalFace])
                      (classifierReturning [sampleVector]);
     inflight := [] |}.

(** * Properties *)

(** ** Array helpers *)

Lemma mapi_from_seq {A B : Type} (f : A -> nat -> B) (d : A) (xs : list A) :
  forall i,
    mapi_from f i xs
    = map (fun j => f (nth (j - i) xs d) j) (seq i (List.length xs)).
Proof.
  induction xs as [| x xs IH]; intro i; simpl.
  - reflexivity.
  - rewrite Nat.sub_diag. f_equal.
    rewrite IH. apply map_ext_in.
    intros j Hj. apply in_seq in Hj.
    replace (j - i)%nat with (S (j - S i)) by lia. reflexivity.
Qed.

Lemma filter_map_commute {A B : Type} (p : B -> bool) (f : A -> B) (l : list A) :
  filter p (map f l) = map f (filter (fun a => p (f a)) l).
Proof.
  induction l as [| a l IH]; simpl; [reflexivity|].
  destruct (p (f a)); simpl; now rewrite IH.
Qed.

Lemma insertBy_map {A B : Type} (cmp : B -> B -> Q) (f : A -> B) (a : A)
  (l : list A) :
  insertBy cmp (f a) (map f l)
  = map f (insertBy (fun u v => cmp (f u) (f v)) a l).
Proof.
  induction l as [| b l IH]; simpl; [reflexivity|].
  destruct (Qlt_le_dec 0 (cmp (f a) (f b))); simpl; [now rewrite IH | reflexivity].
Qed.

Lemma sortBy_map {A B : Type} (cmp : B -> B -> Q) (f : A -> B) (l : list A) :
  sortBy cmp (map f l) = map f (sortBy (fun u v => cmp (f u) (f v)) l).
Proof.
  unfold sortBy.
  induction l as [| a l IH]; simpl; [reflexivity|].
  rewrite IH. apply insertBy_map.
Qed.

Lemma insertBy_perm {A : Type} (cmp : A -> A -> Q) (x : A) (l : list A) :
  Permutation (insertBy cmp x l) (x :: l).
Proof.
  induction l as [| y l IH]; simpl; [apply Permutation_refl|].
  destruct (Qlt_le_dec 0 (cmp x y)).
  - eapply Permutation_trans; [apply perm_skip, IH | apply perm_swap].
  - apply Permutation_refl.
Qed.

Lemma sortBy_perm {A : Type} (cmp : A -> A -> Q) (l : list A) :
  Permutation (sortBy cmp l) l.
Proof.
  unfold sortBy.
  induction l as [| x l IH]; simpl; [constructor|].
  eapply Permutation_trans; [apply insertBy_perm | now apply perm_skip].
Qed.

Lemma StronglySorted_filter {A : Type} (R : A -> A -> Prop) (p : A -> bool)
  (l : list A) :
  StronglySorted R l -> StronglySorted R (filter p l).
Proof.
  induction 1 as [| a l Hl IH Ha]; simpl; [constructor|].
  destruct (p a); [|exact IH].
  constructor; [exact IH|].
  rewrite Forall_forall in *. intros b Hb.
  apply filter_In in Hb. now apply Ha.
Qed.

Lemma StronglySorted_seq_lt (n i : nat) : StronglySorted lt (seq i n).
Proof.
  revert i. induction n as [| n IH]; intro i; simpl; constructor.
  - apply IH.
  - rewrite Forall_forall. intros j Hj. apply in_seq in Hj. lia.
Qed.

Lemma StronglySorted_map {A B : Type} (R : A -> A -> Prop) (S : B -> B -> Prop)
  (f : A -> B) (l : list A) :
  (forall a b, R a b -> S (f a) (f b)) ->
  StronglySorted R l -> StronglySorted S (map f l).
Proof.
  intros HRS. induction 1 as [| a l Hl IH Ha]; simpl; constructor.
  - exact IH.
  - rewrite Forall_forall in *. intros b Hb.
    apply in_map_iff in Hb as (c & <- & Hc). now apply HRS, Ha.
Qed.

(** ** Ranking *)

Section Ranking.

Variable raw : list Q.

Lemma emotionResults_entries :
  emotionResults raw = map (entry raw) (seq 0 (List.length raw)).
Proof.
  unfold emotionResults, mapi. rewrite (mapi_from_seq _ 0).
  apply map_ext. intro j. now rewrite Nat.sub_0_r.
Qed.

Lemma ahead_trans (i j k : nat) :
  ahead raw i j -> ahead raw j k -> ahead raw i k.
Proof.
  unfold ahead. intros [Hij | [Hij Lij]] [Hjk | [Hjk Ljk]].
  - left. lra.
  - left. lra.
  - left. lra.
  - right. split; [lra | lia].
Qed.

Lemma ahead_ge (i j : nat) :
  ahead raw i j -> probability (entry raw j) <= probability (entry raw i).
Proof. unfold ahead. intros [H | [H _]]; lra. Qed.

Lemma insertBy_ahead (i : nat) (l : list nat) :
  StronglySorted (ahead raw) l ->
  Forall (lt i) l ->
  StronglySorted (ahead raw) (insertBy (byIndex raw) i l).
Proof.
  induction 1 as [| j l Hl IH Hj]; intro Hi; simpl.
  - constructor; constructor.
  - inversion Hi as [| ? ? Hij Hil]; subst.
    destruct (Qlt_le_dec 0 (byIndex raw i j)) as [Hlt | Hle];
      unfold byIndex, byProbabilityDesc in *.
    + constructor; [now apply IH|].
      rewrite Forall_forall in *. intros k Hk.
      apply (Permutation_in _ (insertBy_perm _ _ _)) in Hk.
      destruct Hk as [<- | Hk]; [left; lra | now apply Hj].
    + assert (Hahead : ahead raw i j).
      { destruct (Qlt_le_dec (probability (entry raw j))
                             (probability (entry raw i))) as [H | H].
        - now left.
        - right. split; [lra | exact Hij]. }
      constructor; [now constructor|].
      constructor; [exact Hahead|].
      rewrite Forall_forall in *. intros k Hk.
      eapply ahead_trans; [exact Hahead | now apply Hj].
Qed.

Lemma sortBy_ahead (l : list nat) :
  StronglySorted lt l -> StronglySorted (ahead raw) (sortBy (byIndex raw) l).
Proof.
  unfold sortBy.
  induction 1 as [| i l Hl IH Hi]; simpl; [constructor|].
  apply insertBy_ahead; [exact IH|].
  rewrite Forall_forall in *. intros k Hk.
  apply Hi. exact (Permutation_in _ (sortBy_perm _ _) Hk).
Qed.

Lemma visible_spec (e : EmotionPrediction) :
  visible e = true <-> 0.0001 < probability e.
Proof.
  unfold visible. destruct (Qlt_le_dec 0.0001 (probability e)); split;
    intros; try easy; lra.
Qed.

Lemma ranked_by_index : ranked raw = map (entry raw) (ranking raw).
Proof.
  unfold ranked, displayed, ranking.
  rewrite emotionResults_entries, filter_map_commute, sortBy_map.
  reflexivity.
Qed.

Lemma ranking_sorted : StronglySorted (ahead raw) (ranking raw).
Proof.
  apply sortBy_ahead, StronglySorted_filter, StronglySorted_seq_lt.
Qed.

Lemma ranking_members (i : nat) :
  In i (ranking raw) <-> (i < List.length raw)%nat /\ 0.0001 < nth i raw 0 * 100.
Proof.
  unfold ranking. split.
  - intro H. apply (Permutation_in _ (sortBy_perm _ _)) in H.
    apply filter_In in H as [Hs Hv]. apply in_seq in Hs.
    apply visible_spec in Hv. split; [lia | exact Hv].
  - intros [Hi Hv].
    apply (Permutation_in _ (Permutation_sym (sortBy_perm _ _))).
    apply filter_In. split; [apply in_seq; lia | now apply visible_spec].
Qed.

End Ranking.

(** C1: for every raw probability vector the ranked result is the sort of
    the filtered entries (the filter runs first); it holds no entry whose
    scaled probability is at most 0.0001; it is non-increasing in
    probability; and it lists the entries of the indices that pass the
    filter, each with the raw value times 100, in an order where a larger
    probability comes first and equal probabilities keep their index
    order. *)
Theorem ranked_filtered_sorted_stable (raw : list Q) :
  ranked raw = sortBy byProbabilityDesc (filter visible (emotionResults raw)) /\
  Forall (fun e => ~ probability e <= 0.0001) (ranked raw) /\
  StronglySorted (fun a b => probability b <= probability a) (ranked raw) /\
  exists idxs : list nat,
    ranked raw = map (entry raw) idxs /\
    (forall i, In i idxs -> probability (entry raw i) = nth i raw 0 * 100) /\
    StronglySorted (ahead raw) idxs /\
    (forall i, In i idxs <->
               (i < List.length raw)%nat /\ 0.0001 < nth i raw 0 * 100).
Proof.
  split; [reflexivity|]. split; [|split].
  - rewrite ranked_by_index, Forall_forall. intros e He.
    apply in_map_iff in He as (i & <- & Hi).
    apply ranking_members in Hi as [_ Hi]. simpl. lra.
  - rewrite ranked_by_index.
    apply StronglySorted_map with (R := ahead raw);
      [apply ahead_ge | apply ranking_sorted].
  - exists (ranking raw). split; [apply ranked_by_index|].
    split; [reflexivity|]. split; [apply ranking_sorted|].
    apply ranking_members.
Qed.

Lemma binary64_insertBy_perm {A : Type} (cmp : A -> A -> float) (x : A)
  (l : list A) :
  Permutation (Binary64.insertBy cmp x l) (x :: l).
Proof.
  induction l as [| y l IH]; simpl; [apply Permutation_refl|].
  destruct (0 <? cmp x y)%float.
  - eapply Permutation_trans; [apply perm_skip, IH | apply perm_swap].
  - apply Permutation_refl.
Qed.

Lemma binary64_ranked_perm (raw : list float) :
  Permutation (Binary64.ranked raw)
    (filter Binary64.visible (Binary64.emotionResults raw)).
Proof.
  unfold Binary64.ranked, Binary64.sortBy.
  induction (filter Binary64.visible (Binary64.emotionResults raw))
    as [| x l IH]; simpl; [constructor|].
  eapply Permutation_trans;
    [apply binary64_insertBy_perm | now apply perm_skip].
Qed.

(** On binary64 numbers too the filter decides what is shown: whatever the
    raw vector holds (NaN and infinities included), every ranked entry
    compares above the threshold. *)
Lemma binary64_ranked_visible (raw : list float) :
  Forall (fun e => (0.0001 <? Binary64.percent e)%float = true)
         (Binary64.ranked raw).
Proof.
  rewrite Forall_forall. intros e He.
  apply (Permutation_in _ (binary64_ranked_perm raw)) in He.
  now apply filter_In in He.
Qed.

(** ** The stretches of [detectEmotion] *)

Lemma setIsLoading_twice (a b : bool) (st : State) :
  setIsLoading a (setIsLoading b st) = setIsLoading a st.
Proof. reflexivity. Qed.

Lemma caught_setIsLoading (b : bool) (st : State) :
  caught (setIsLoading b st) = caught st.
Proof. reflexivity. Qed.

Lemma threw_app (l1 l2 : list Event) : threw (l1 ++ l2) = threw l1 || threw l2.
Proof. apply existsb_app. Qed.

Ltac run_stretch :=
  cbv [in_try untilFaces untilArray untilEnd bind ret update emit lift
       or_return early_return];
  repeat match goal with
         | |- context [match ?x with _ => _ end] =>
             lazymatch x with
             | context [match _ with _ => _ end] => fail
             | _ => destruct x eqn:?
             end
         end;
  simpl.

(** What a resumed call does when the localizer found no face. *)
Lemma resume_no_face (ctx : Context2D) (ed : EmotionDetector) (st : State) :
  resume (AwaitFaces ctx ed (inr [])) st
  = (setIsLoading false
       (setEmotionPredictions None
          (setPrediction (Some "No faces detected"%string) st)),
     [], None).
Proof. reflexivity. Qed.

(** What a resumed call does with the first face: it reads the landmarks,
    asks for the pixels of the region and calls the classifier. *)
Lemma resume_first_face (ctx : Context2D) (ed : EmotionDetector) (face : Face)
  (rest : list Face) (st : State) :
  resume (AwaitFaces ctx ed (inr (face :: rest))) st
  = match cropRegion (landmarks face) with
    | inl e => (caught st, [ConsoleError "Error detecting faces:" e], None)
    | inr region =>
        match getImageData ctx region with
        | inl e =>
            (caught st,
             [CallGetImageData region; ConsoleError "Error detecting faces:" e],
             None)
        | inr faceData =>
            (st, [CallGetImageData region; CallPredict],
             Some (AwaitArray (predict ed (imageTensor faceData))))
        end
    end.
Proof.
  unfold resume. run_stretch; try reflexivity; now destruct st.
Qed.

(** What a resumed call does with the array of the classifier. *)
Lemma resume_array (row : list Q) (rest : list (list Q)) (st : State) :
  resume (AwaitArray (inr (row :: rest))) st
  = (setIsLoading false
       (setPrediction (Some "Face detected and emotion analyzed!"%string)
          (setEmotionPredictions (Some (emotionResults row)) st)),
     [ConsoleInfo (row :: rest)], None).
Proof. reflexivity. Qed.

(** A stretch that stops at an [await] has touched nothing but
    [isLoading] and has not reached the [catch] block. *)
Lemma start_suspended (refs : Refs) (st st1 : State) (log1 : list Event)
  (p : Pending) :
  detectEmotion_start refs st = (st1, log1, Some p) ->
  st1 = setIsLoading true st /\ threw log1 = false /\
  exists ctx ed settled, p = AwaitFaces ctx ed settled.
Proof.
  unfold detectEmotion_start.
  destruct (imageRef refs), (faceDetector (models st)),
    (emotionDetector (models st)), (truthy (selectedImage st));
    try discriminate.
  run_stretch; intro H; inversion H; subst; eauto 6.
Qed.

Lemma resume_suspended (p p' : Pending) (st st2 : State) (log2 : list Event) :
  resume p st = (st2, log2, Some p') ->
  st2 = st /\ threw log2 = false /\ exists settled, p' = AwaitArray settled.
Proof.
  destruct p; unfold resume; run_stretch; intro H; inversion H; subst;
    try destruct st; eauto.
Qed.

(** A stretch that ends in the [catch] block has changed the status string
    and switched [isLoading] off, nothing else. *)
Lemma start_threw (refs : Refs) (st st1 : State) (log1 : list Event) :
  detectEmotion_start refs st = (st1, log1, None) ->
  threw log1 = true -> st1 = caught st.
Proof.
  unfold detectEmotion_start.
  destruct (imageRef refs), (faceDetector (models st)),
    (emotionDetector (models st)), (truthy (selectedImage st));
    try (intro H; inversion H; subst; discriminate).
  run_stretch; intro H; inversion H; subst; simpl; try discriminate;
    reflexivity.
Qed.

Lemma resume_threw (p : Pending) (st st2 : State) (log2 : list Event) :
  resume p st = (st2, log2, None) ->
  threw log2 = true -> st2 = caught st.
Proof.
  destruct p; unfold resume; run_stretch; intro H; inversion H; subst; simpl;
    try discriminate; try reflexivity; now destruct st.
Qed.

(** Whatever a stretch does, it leaves [isLoading] on exactly when it
    stops at an [await]. *)
Lemma start_loading (refs : Refs) (st st1 : State) (log1 : list Event)
  (p : option Pending) :
  isLoading st = false ->
  detectEmotion_start refs st = (st1, log1, p) ->
  isLoading st1 = present p.
Proof.
  intro Hl. unfold detectEmotion_start.
  destruct (imageRef refs), (faceDetector (models st)),
    (emotionDetector (models st)), (truthy (selectedImage st));
    try (intro H; inversion H; subst; exact Hl).
  run_stretch; intro H; inversion H; subst; reflexivity.
Qed.

Lemma resume_loading (p : Pending) (st st2 : State) (log2 : list Event)
  (p' : option Pending) :
  isLoading st = true ->
  resume p st = (st2, log2, p') ->
  isLoading st2 = present p'.
Proof.
  intro Hl.
  destruct p; unfold resume; run_stretch; intro H; inversion H; subst;
    simpl; try reflexivity; exact Hl.
Qed.

(** C2: the raw vector [0.01, 0.00, 0.00, 0.95, 0.02, 0.01, 0.01] is shown
    as Happy 95.00, Neutral 2.00, Angry 1.00, Sad 1.00, Surprised 1.00: the
    two zero entries are filtered out and the three entries of probability 1
    keep their index order (0, 5, 6).  The same lines come out when the
    arithmetic is done on binary64 numbers, and they are the lines of the
    view after a request whose classifier returns this vector. *)
Theorem ranked_sample_vector :
  map line (ranked [0.01; 0.00; 0.00; 0.95; 0.02; 0.01; 0.01])
  = [(Some "Happy", "95.00"); (Some "Neutral", "2.00"); (Some "Angry", "1.00");
     (Some "Sad", "1.00"); (Some "Surprised", "1.00")]%string /\
  Forall2 (fun e p => emotion e = Some (fst p) /\ probability e == snd p)
    (ranked [0.01; 0.00; 0.00; 0.95; 0.02; 0.01; 0.01])
    [("Happy", 95); ("Neutral", 2); ("Angry", 1); ("Sad", 1);
     ("Surprised", 1)]%string /\
  ranking [0.01; 0.00; 0.00; 0.95; 0.02; 0.01; 0.01] = [3; 4; 0; 5; 6]%nat /\
  Binary64.ranked [0.01; 0.00; 0.00; 0.95; 0.02; 0.01; 0.01]%float
  = [Binary64.mkPrediction64 (Some "Happy"%string) 95%float;
     Binary64.mkPrediction64 (Some "Neutral"%string) 2%float;
     Binary64.mkPrediction64 (Some "Angry"%string) 1%float;
     Binary64.mkPrediction64 (Some "Sad"%string) 1%float;
     Binary64.mkPrediction64 (Some "Surprised"%string) 1%float] /\
  map Binary64.line
    (Binary64.ranked [0.01; 0.00; 0.00; 0.95; 0.02; 0.01; 0.01]%float)
  = map line (ranked [0.01; 0.00; 0.00; 0.95; 0.02; 0.01; 0.01]) /\
  result (render (fst (detectEmotion sampleRefs
                         (readyState
                            (detectorReturning [frontalFace])
                            (classifierReturning
                               [[0.01; 0.00; 0.00; 0.95; 0.02; 0.01; 0.01]])))))
  = Some ("Face detected and emotion analyzed!",
          Some [(Some "Happy", "95.00"); (Some "Neutral", "2.00");
                (Some "Angry", "1.00"); (Some "Sad", "1.00");
                (Some "Surprised", "1.00")])%string.
Proof.
  split; [vm_compute; reflexivity|].
  split; [repeat constructor|].
  split; [vm_compute; reflexivity|].
  split; [vm_compute; reflexivity|].
  split; vm_compute; reflexivity.
Qed.

(** ** Geometry *)

Lemma half_positive_iff (lm : list (Q * Q)) :
  0 < 2 * half lm <-> fst (P_r lm) - fst (P_l lm) < 10.
Proof.
  unfold half.
  assert (H : (fst (P_l lm) - fst (P_r lm)) / 2
              == (fst (P_l lm) - fst (P_r lm)) * (1 # 2)) by reflexivity.
  rewrite H. split; intro; lra.
Qed.

Lemma landmark_nth (lm : list (Q * Q)) (i : nat) :
  (i < List.length lm)%nat -> landmark lm i = inr (nth i lm (0, 0)).
Proof.
  intro Hi. unfold landmark.
  now rewrite (nth_error_nth' lm (0, 0) Hi).
Qed.

Lemma cropRegion_complete (lm : list (Q * Q)) :
  (6 <= List.length lm)%nat ->
  cropRegion lm
  = inr {| sx := fst (P_n lm) - half lm; sy := snd (P_n lm) - half lm;
           sw := 2 * half lm; sh := 2 * half lm |}.
Proof.
  intro Hlen. unfold cropRegion.
  rewrite !landmark_nth by lia. reflexivity.
Qed.

(** C3: with at least six landmarks and [P_l.x > P_r.x], the region handed
    to the cropping [getImageData] call is
    [{x: P_n.x - half, y: P_n.y - half, width: 2*half, height: 2*half}] with
    [half = (P_l.x - P_r.x) / 2 + 5], P_n, P_r, P_l being landmarks 2, 4 and
    5; its width equals its height and is positive. *)
Theorem cropRegion_square (lm : list (Q * Q)) :
  (6 <= List.length lm)%nat ->
  fst (P_r lm) < fst (P_l lm) ->
  exists region : CropRegion,
    cropRegion lm = inr region /\
    region = {| sx := fst (nth 2 lm (0, 0)) - half lm;
                sy := snd (nth 2 lm (0, 0)) - half lm;
                sw := 2 * half lm;
                sh := 2 * half lm |} /\
    half lm = (fst (nth 5 lm (0, 0)) - fst (nth 4 lm (0, 0))) / 2 + 5 /\
    sw region = sh region /\ 0 < sw region /\
    forall ctx ed rest st,
      In (CallGetImageData region)
         (snd (fst (resume (AwaitFaces ctx ed (inr ({| landmarks := lm |} :: rest)))
                      st))).
Proof.
  intros Hlen Hlr. eexists. split; [now apply cropRegion_complete|].
  split; [reflexivity|]. split; [reflexivity|]. split; [reflexivity|].
  split.
  - cbn [sw]. apply half_positive_iff. lra.
  - intros ctx ed rest st. rewrite resume_first_face. simpl.
    rewrite (cropRegion_complete lm Hlen).
    destruct (getImageData _ _); simpl; auto.
Qed.

Lemma cropRegion_square_witness :
  exists region : CropRegion,
    cropRegion (landmarks frontalFace) = inr region /\
    sw region = sh region /\ 0 < sw region.
Proof.
  destruct (cropRegion_square (landmarks frontalFace)) as (r & H1 & _ & _ & H2 & H3 & _).
  - simpl. lia.
  - vm_compute. reflexivity.
  - exists r. auto.
Defined.

Lemma failure_of_status_cases (status : option string) :
  failure_of_status status = None \/
  failure_of_status status = Some NoFaceDetected \/
  failure_of_status status = Some DetectionFailed.
Proof.
  unfold failure_of_status. destruct status as [s|]; [|now left].
  destruct (s =? "No faces detected")%string; [now right; left|].
  destruct (s =? "Error detecting faces")%string; [now right; right | now left].
Qed.

(** C4 as stated fails: with the two reference landmarks at the same
    abscissa the request is not rejected.  The pixels of a 10x10 region are
    extracted, the classifier runs and the request ends with the success
    status and seven predictions. *)
Lemma degenerate_landmarks_not_rejected :
  fst (P_l (landmarks degenerateFace)) <= fst (P_r (landmarks degenerateFace)) /\
  let run := detectEmotion sampleRefs
               (readyState (detectorReturning [degenerateFace])
                           (classifierReturning [sampleVector])) in
  existsb (fun ev => match ev with
                     | CallGetImageData r =>
                         Qeq_bool (sw r) 10 && Qeq_bool (sh r) 10
                     | _ => false
                     end) (snd run) = true /\
  existsb (fun ev => match ev with CallPredict => true | _ => false end)
          (snd run) = true /\
  prediction (fst run) = Some "Face detected and emotion analyzed!"%string /\
  option_map (@List.length _) (emotionPredictions (fst run)) = Some 7%nat /\
  failure_of_status (prediction (fst run)) <> Some InvalidGeometry.
Proof.
  split; [vm_compute; discriminate|].
  repeat split; try (vm_compute; reflexivity).
  vm_compute. discriminate.
Qed.

(** C4, amended: landmarks with [P_l.x <= P_r.x] are not checked.  The
    region [{x: P_n.x - half, y: P_n.y - half, width: 2*half, height:
    2*half}] is computed as for any other face and [getImageData] is called
    with it; its width is still positive as long as [P_r.x - P_l.x < 10].
    The request then either goes on to the classifier or, when
    [getImageData] throws, ends in the catch-all status; no status reports
    an invalid geometry. *)
Theorem degenerate_landmarks_extracted (lm : list (Q * Q)) (ctx : Context2D)
  (ed : EmotionDetector) (rest : list Face) (st : State) :
  (6 <= List.length lm)%nat ->
  fst (P_l lm) <= fst (P_r lm) ->
  let region := {| sx := fst (P_n lm) - half lm; sy := snd (P_n lm) - half lm;
                   sw := 2 * half lm; sh := 2 * half lm |} in
  cropRegion lm = inr region /\
  (0 < sw region <-> fst (P_r lm) - fst (P_l lm) < 10) /\
  exists st' log p,
    resume (AwaitFaces ctx ed (inr ({| landmarks := lm |} :: rest))) st
    = (st', log, p) /\
    In (CallGetImageData region) log /\
    ((exists faceData,
         getImageData ctx region = inr faceData /\ st' = st /\
         p = Some (AwaitArray (predict ed (imageTensor faceData)))) \/
     (exists e,
         getImageData ctx region = inl e /\ st' = caught st /\ p = None /\
         prediction st' = Some "Error detecting faces"%string)) /\
    failure_of_status (prediction st') <> Some InvalidGeometry.
Proof.
  intros Hlen Hlr region.
  split; [now apply cropRegion_complete|].
  split; [apply half_positive_iff|].
  rewrite resume_first_face. simpl.
  rewrite (cropRegion_complete lm Hlen). fold region.
  destruct (getImageData ctx region) as [e | faceData] eqn:Hget.
  - do 3 eexists. split; [reflexivity|]. split; [simpl; auto|].
    split; [right; exists e; auto|]. simpl. discriminate.
  - do 3 eexists. split; [reflexivity|]. split; [simpl; auto|].
    split; [left; exists faceData; auto|].
    destruct (failure_of_status_cases (prediction st)) as [H | [H | H]];
      rewrite H; discriminate.
Qed.

Lemma degenerate_landmarks_extracted_witness :
  cropRegion (landmarks degenerateFace)
  = inr {| sx := fst (P_n (landmarks degenerateFace)) - half (landmarks degenerateFace);
           sy := snd (P_n (landmarks degenerateFace)) - half (landmarks degenerateFace);
           sw := 2 * half (landmarks degenerateFace);
           sh := 2 * half (landmarks degenerateFace) |}.
Proof.
  refine (proj1 (degenerate_landmarks_extracted (landmarks degenerateFace)
                   {| canvas_width := 64; canvas_height := 48;
                      bitmap := img_pixels sampleImage |}
                   (classifierReturning [sampleVector]) []
                   (readyState (detectorReturning [degenerateFace])
                               (classifierReturning [sampleVector])) _ _)).
  - simpl. lia.
  - vm_compute. discriminate.
Defined.

(** ** Classifier output of any length *)

Lemma emotionResults_length (raw : list Q) :
  List.length (emotionResults raw) = List.length raw.
Proof.
  rewrite emotionResults_entries. now rewrite length_map, length_seq.
Qed.

Lemma emotionResults_nth (raw : list Q) (i : nat) :
  (i < List.length raw)%nat ->
  nth_error (emotionResults raw) i = Some (entry raw i).
Proof.
  intro Hi. rewrite emotionResults_entries.
  rewrite nth_error_map, nth_error_seq.
  apply Nat.ltb_lt in Hi. now rewrite Hi.
Qed.

(** C5 as stated fails: a classifier vector of three entries raises no
    shape error.  The request ends with the success status and three
    predictions; a vector of nine entries gives nine predictions, the last
    two without a label. *)
Lemma short_vector_not_rejected :
  List.length shortVector <> 7%nat /\
  let run := detectEmotion sampleRefs
               (readyState (detectorReturning [frontalFace])
                           (classifierReturning [shortVector])) in
  threw (snd run) = false /\
  prediction (fst run) = Some "Face detected and emotion analyzed!"%string /\
  failure_of_status (prediction (fst run)) <> Some ClassifierOutputShapeError /\
  option_map (map emotion) (emotionPredictions (fst run))
  = Some [Some "Angry"; Some "Disgust"; Some "Fear"]%string /\
  let run9 := detectEmotion sampleRefs
                (readyState (detectorReturning [frontalFace])
                            (classifierReturning [longVector])) in
  prediction (fst run9) = Some "Face detected and emotion analyzed!"%string /\
  option_map (map emotion) (emotionPredictions (fst run9))
  = Some [Some "Angry"; Some "Disgust"; Some "Fear"; Some "Happy";
          Some "Neutral"; Some "Sad"; Some "Surprised"; None; None]%string.
Proof.
  split; [vm_compute; discriminate|].
  repeat split; try (vm_compute; reflexivity).
  vm_compute. discriminate.
Qed.

(** C5, amended: the length of the raw vector is not checked.  For a raw
    vector of any length [n] the request ends with the success status and
    exactly [n] predictions, neither cut nor padded to seven; entry [i] has
    the raw value times 100 and the label at position [i] of the label
    table, which is undefined from position 7 on.  No status reports a
    shape error. *)
Theorem any_length_vector_accepted (raw : list Q) (rest : list (list Q))
  (st : State) :
  exists st',
    resume (AwaitArray (inr (raw :: rest))) st
    = (st', [ConsoleInfo (raw :: rest)], None) /\
    prediction st' = Some "Face detected and emotion analyzed!"%string /\
    failure_of_status (prediction st') = None /\
    emotionPredictions st' = Some (emotionResults raw) /\
    List.length (emotionResults raw) = List.length raw /\
    forall i, (i < List.length raw)%nat ->
      nth_error (emotionResults raw) i
      = Some {| emotion := nth_error emotions i;
                probability := nth i raw 0 * 100 |} /\
      ((7 <= i)%nat -> nth_error emotions i = None).
Proof.
  eexists. split; [apply resume_array|].
  repeat split.
  - apply emotionResults_length.
  - now apply emotionResults_nth.
  - intro Hi. apply nth_error_None. simpl. exact Hi.
Qed.

(** ** No face *)

(** C6: when the promise of the localizer settles with zero faces, the
    request ends with the status "No faces detected" and with no
    predictions; the classifier is not called and loading is switched
    off. *)
Theorem no_face_detected (refs : Refs) (st st1 : State) (log1 : list Event)
  (ctx : Context2D) (ed : EmotionDetector) :
  detectEmotion_start refs st = (st1, log1, Some (AwaitFaces ctx ed (inr []))) ->
  prediction (fst (detectEmotion refs st)) = Some "No faces detected"%string /\
  emotionPredictions (fst (detectEmotion refs st)) = None /\
  result (render (fst (detectEmotion refs st)))
  = Some ("No faces detected"%string, None) /\
  failure_of_status (prediction (fst (detectEmotion refs st)))
  = Some NoFaceDetected /\
  isLoading (fst (detectEmotion refs st)) = false /\
  ~ In CallPredict (snd (detectEmotion refs st)) /\
  threw (snd (detectEmotion refs st)) = false.
Proof.
  intro Hstart.
  destruct (start_suspended _ _ _ _ _ Hstart) as (_ & Hlog & _).
  unfold detectEmotion. rewrite Hstart, resume_no_face. simpl.
  repeat split; try reflexivity.
  - rewrite app_nil_r. intro Hin.
    revert Hstart. unfold detectEmotion_start.
    destruct (imageRef refs), (faceDetector (models st)),
      (emotionDetector (models st)), (truthy (selectedImage st));
      try discriminate.
    run_stretch; intro H; inversion H; subst.
    simpl in Hin. intuition discriminate.
  - now rewrite app_nil_r.
Qed.

Lemma no_face_detected_witness :
  prediction (fst (detectEmotion sampleRefs
                     (shownState (detectorReturning [])
                                 (classifierReturning [sampleVector]))))
  = Some "No faces detected"%string /\
  emotionPredictions (fst (detectEmotion sampleRefs
                             (shownState (detectorReturning [])
                                         (classifierReturning [sampleVector]))))
  = None.
Proof.
  destruct (no_face_detected sampleRefs
              (shownState (detectorReturning [])
                          (classifierReturning [sampleVector]))
              (setIsLoading true
                 (shownState (detectorReturning [])
                             (classifierReturning [sampleVector])))
              [CallGetImageData {| sx := 0; sy := 0; sw := 64; sh := 48 |};
               CallEstimateFaces]
              {| canvas_width := 64; canvas_height := 48;
                 bitmap := img_pixels sampleImage |}
              (classifierReturning [sampleVector]))
    as (H1 & H2 & _).
  - vm_compute. reflexivity.
  - split; [exact H1 | exact H2].
Defined.

(** ** Upload *)

Lemma steps_without_click (inputs : list Input) :
  forall s : Sys,
    inflight s = [] ->
    prediction (ui s) = None ->
    forallb (fun i => negb (is_click i)) inputs = true ->
    inflight (steps s inputs) = [] /\ prediction (ui (steps s inputs)) = None.
Proof.
  induction inputs as [| i inputs IH]; intros s Hnil Hnone Hquiet; simpl.
  - now split.
  - simpl in Hquiet. apply andb_true_iff in Hquiet as [Hi Hquiet].
    apply IH; [| |exact Hquiet].
    + destruct i as [m | file | refs | n]; simpl; try exact Hnil;
        try discriminate.
      rewrite Hnil. now destruct n.
    + destruct i as [m | file | refs | n]; simpl; try exact Hnone;
        try discriminate.
      * destruct file as [f|]; [|exact Hnone].
        unfold handleImageUpload.
        destruct (readAsDataURL f) as [[s0|]|]; simpl; auto.
      * rewrite Hnil. now destruct n.
Qed.

(** After an upload whose read gives a string, as long as no call of
    [detectEmotion] is suspended, the result block stays away whatever
    happens next, until the button is clicked again. *)
Lemma results_stay_cleared (s : Sys) (f : File) (str : string)
  (inputs : list Input) :
  inflight s = [] ->
  readAsDataURL f = Some (ResultString str) ->
  forallb (fun i => negb (is_click i)) inputs = true ->
  result (render (ui (steps (fst (step s (Upload (Some f)))) inputs))) = None.
Proof.
  intros Hnil Hread Hquiet.
  destruct (steps_without_click inputs (fst (step s (Upload (Some f)))))
    as [_ Hnone]; try assumption.
  - simpl. unfold handleImageUpload. now rewrite Hread.
  - unfold render. cbn [result]. now rewrite Hnone.
Qed.

(** C9 as stated fails: an upload does not keep the results of an earlier
    request away from the new image.  The button is clicked for a first
    image and the call waits for the classifier; a second image is then
    read, which clears the view; when the classifier answers, the call
    writes its predictions, and the view shows the lines of the first
    image next to the second one. *)
Lemma stale_results_beside_new_image :
  reachable (steps classifyingSys [Upload (Some otherFile); Settle 0]) /\
  selectedImage (ui classifyingSys)
  = Some "data:image/png;base64,AAAA"%string /\
  inflight classifyingSys = [AwaitArray (inr [sampleVector])] /\
  readAsDataURL otherFile
  = Some (ResultString "data:image/png;base64,BBBB") /\
  result (render (ui (steps classifyingSys [Upload (Some otherFile)]))) = None /\
  image_src (render (ui (steps classifyingSys [Upload (Some otherFile); Settle 0])))
  = Some "data:image/png;base64,BBBB"%string /\
  result (render (ui (steps classifyingSys [Upload (Some otherFile); Settle 0])))
  = Some ("Face detected and emotion analyzed!",
          Some [(Some "Happy", "95.00"); (Some "Neutral", "2.00");
                (Some "Angry", "1.00"); (Some "Sad", "1.00");
                (Some "Surprised", "1.00")])%string.
Proof.
  split.
  { unfold steps, classifyingSys, busySys. cbn [fold_left].
    repeat apply reachable_step. apply reachable_initial. }
  repeat split; vm_compute; reflexivity.
Qed.

(** C9, amended: when a file was chosen and its read ends with a string,
    the handler stores the string as the selected image and sets the
    predictions and the status string to null, so that the view rendered
    from the state it leaves has no result block; and when no call of
    [detectEmotion] is suspended at that moment, no result is shown with
    the new image, whatever happens next, until the button is clicked
    again.  (A call that is suspended is not cancelled by the upload.) *)
Theorem upload_clears_results_while_idle (s : Sys) (f : File) (str : string)
  (inputs : list Input) :
  readAsDataURL f = Some (ResultString str) ->
  emotionPredictions (handleImageUpload (Some f) (ui s)) = None /\
  prediction (handleImageUpload (Some f) (ui s)) = None /\
  selectedImage (handleImageUpload (Some f) (ui s)) = Some str /\
  isLoading (handleImageUpload (Some f) (ui s)) = isLoading (ui s) /\
  models (handleImageUpload (Some f) (ui s)) = models (ui s) /\
  result (render (handleImageUpload (Some f) (ui s))) = None /\
  (inflight s = [] ->
   forallb (fun i => negb (is_click i)) inputs = true ->
   prediction (ui (steps (fst (step s (Upload (Some f)))) inputs)) = None /\
   emotionPredictions (ui (steps (fst (step s (Upload (Some f)))) inputs))
   = None /\
   result (render (ui (steps (fst (step s (Upload (Some f)))) inputs)))
   = None).
Proof.
  intro Hread.
  assert (Hup : handleImageUpload (Some f) (ui s)
                = setPrediction None
                    (setEmotionPredictions None
                       (setSelectedImage (Some str) (ui s)))).
  { unfold handleImageUpload. now rewrite Hread. }
  rewrite Hup. do 6 (split; [reflexivity|]).
  intros Hnil Hquiet.
  destruct (steps_without_click inputs (fst (step s (Upload (Some f)))))
    as [Hidle Hnone]; try assumption.
  { unfold step. cbn [fst ui]. now rewrite Hup. }
  split; [exact Hnone|].
  assert (Hpred : emotionPredictions
                    (ui (steps (fst (step s (Upload (Some f)))) inputs)) = None).
  { clear Hidle Hnone.
    assert (Hgen : forall s0 : Sys,
               inflight s0 = [] -> emotionPredictions (ui s0) = None ->
               emotionPredictions (ui (steps s0 inputs)) = None).
    { induction inputs as [| i inputs IH]; intros s0 H0 He; [exact He|].
      simpl in Hquiet. apply andb_true_iff in Hquiet as [Hi Hrest].
      change (steps s0 (i :: inputs)) with (steps (fst (step s0 i)) inputs).
      apply (IH Hrest).
      - destruct i as [m | file | refs | n]; simpl; try exact H0;
          try discriminate.
        rewrite H0. now destruct n.
      - destruct i as [m | file | refs | n]; simpl; try exact He;
          try discriminate.
        + destruct file as [f0|]; [|exact He].
          unfold handleImageUpload.
          destruct (readAsDataURL f0) as [[s1|]|]; simpl; auto.
        + rewrite H0. now destruct n. }
    apply Hgen; [exact Hnil|]. unfold step. cbn [fst ui]. now rewrite Hup. }
  split; [exact Hpred|].
  unfold render. cbn [result]. now rewrite Hnone.
Qed.

Lemma upload_clears_results_while_idle_witness :
  emotionPredictions (ui shownSys) = Some (emotionResults sampleVector) /\
  emotionPredictions (handleImageUpload (Some sampleFile) (ui shownSys)) = None /\
  prediction (handleImageUpload (Some sampleFile) (ui shownSys)) = None /\
  result (render (ui (steps (fst (step shownSys (Upload (Some sampleFile))))
                        [Settle 0; Upload None; Settle 1])))
  = None.
Proof.
  destruct (upload_clears_results_while_idle shownSys sampleFile
              "data:image/png;base64,AAAA"
              [Settle 0; Upload None; Settle 1] eq_refl)
    as (H1 & H2 & _ & _ & _ & _ & H3).
  destruct (H3 eq_refl eq_refl) as (_ & _ & H4).
  split; [reflexivity|]. split; [exact H1|]. split; [exact H2 | exact H4].
Defined.

(** ** The catch-all path *)

(** C10: when a request ends in the [catch] block, the state it leaves is
    the state it started from with the status string set to "Error
    detecting faces" and loading switched off: the predictions are the ones
    the component held before the request, and so are the selected image
    and the models. *)
Theorem failed_request_keeps_predictions (refs : Refs) (st : State) :
  threw (snd (detectEmotion refs st)) = true ->
  fst (detectEmotion refs st) = caught st /\
  prediction (fst (detectEmotion refs st)) = Some "Error detecting faces"%string /\
  emotionPredictions (fst (detectEmotion refs st)) = emotionPredictions st /\
  selectedImage (fst (detectEmotion refs st)) = selectedImage st /\
  models (fst (detectEmotion refs st)) = models st /\
  (isLoading st = false ->
   fst (detectEmotion refs st)
   = setPrediction (Some "Error detecting faces"%string) st).
Proof.
  intro Hthrew.
  assert (Hfinal : fst (detectEmotion refs st) = caught st).
  { revert Hthrew. unfold detectEmotion.
    destruct (detectEmotion_start refs st) as [[st1 log1] [p1|]] eqn:Hstart.
    - destruct (start_suspended _ _ _ _ _ Hstart) as (-> & Hlog1 & _).
      destruct (resume p1 (setIsLoading true st)) as [[st2 log2] [p2|]] eqn:Hres.
      + destruct (resume_suspended _ _ _ _ _ Hres) as (-> & Hlog2 & _).
        destruct (resume p2 (setIsLoading true st)) as [[st3 log3] p3] eqn:Hres2.
        simpl. rewrite !threw_app, Hlog1, Hlog2. simpl. intro Hlog3.
        destruct p3 as [p3|].
        * destruct (resume_suspended _ _ _ _ _ Hres2) as (_ & H & _).
          congruence.
        * now rewrite (resume_threw _ _ _ _ Hres2 Hlog3).
      + simpl. rewrite threw_app, Hlog1. simpl. intro Hlog2.
        now rewrite (resume_threw _ _ _ _ Hres Hlog2).
    - simpl. intro Hlog1. exact (start_threw _ _ _ _ Hstart Hlog1). }
  rewrite Hfinal. repeat split.
  intro Hl. destruct st; simpl in *. now subst.
Qed.

Lemma failed_request_keeps_predictions_witness :
  emotionPredictions
    (fst (detectEmotion sampleRefs
            (shownState (detectorReturning [frontalFace]) failingClassifier)))
  = Some (emotionResults sampleVector) /\
  prediction
    (fst (detectEmotion sampleRefs
            (shownState (detectorReturning [frontalFace]) failingClassifier)))
  = Some "Error detecting faces"%string.
Proof.
  destruct (failed_request_keeps_predictions sampleRefs
              (shownState (detectorReturning [frontalFace]) failingClassifier))
    as (_ & H2 & H3 & _).
  - vm_compute. reflexivity.
  - split; [exact H3 | exact H2].
Defined.

(** ** One request at a time *)

Lemma handleImageUpload_isLoading (file : option File) (st : State) :
  isLoading (handleImageUpload file st) = isLoading st.
Proof.
  destruct file as [f|]; [|reflexivity].
  unfold handleImageUpload. destruct (readAsDataURL f) as [[s|]|]; reflexivity.
Qed.

Lemma enabled_not_loading (st : State) :
  button_disabled (render st) = false -> isLoading st = false.
Proof.
  simpl. intro H.
  apply orb_false_elim in H as [H _].
  apply orb_false_elim in H as [H _].
  now apply orb_false_elim in H as [_ H].
Qed.

Lemma step_preserves (s : Sys) (i : Input) :
  loading_tracks_inflight s -> loading_tracks_inflight (fst (step s i)).
Proof.
  intro Hinv. destruct i as [m | file | refs | n]; unfold step.
  - exact Hinv.
  - unfold loading_tracks_inflight in *. simpl.
    now rewrite handleImageUpload_isLoading.
  - destruct (button_disabled (render (ui s))) eqn:Hdis; [exact Hinv|].
    pose proof (enabled_not_loading _ Hdis) as Hl.
    destruct Hinv as [[Hnil _] | (p & _ & Hload)]; [|congruence].
    destruct (detectEmotion_start refs (ui s)) as [[st log] p] eqn:Hstart.
    pose proof (start_loading _ _ _ _ _ Hl Hstart) as Hst.
    unfold loading_tracks_inflight. simpl. rewrite Hnil. simpl.
    destruct p as [p|]; simpl in *; [right; eauto | now left].
  - destruct Hinv as [[Hnil Hl] | (p & Hone & Hl)].
    + rewrite Hnil. destruct n; simpl; left; auto.
    + rewrite Hone. destruct n as [|n]; cbn [nth_error].
      * destruct (resume p (ui s)) as [[st log] p'] eqn:Hres.
        pose proof (resume_loading _ _ _ _ _ Hl Hres) as Hst.
        unfold loading_tracks_inflight. simpl.
        destruct p' as [p'|]; simpl in *; [right; eauto | now left].
      * destruct n; simpl; right; eauto.
Qed.

Lemma reachable_tracks (s : Sys) :
  reachable s -> loading_tracks_inflight s.
Proof.
  induction 1 as [| s i _ IH].
  - now left.
  - now apply step_preserves.
Qed.

(** The start of [detectEmotion] does not look at [isLoading]. *)
Lemma start_ignores_loading (refs : Refs) (st : State) (b : bool) :
  snd (detectEmotion_start refs (setIsLoading b st))
  = snd (detectEmotion_start refs st) /\
  snd (fst (detectEmotion_start refs (setIsLoading b st)))
  = snd (fst (detectEmotion_start refs st)).
Proof.
  unfold detectEmotion_start. simpl.
  destruct (imageRef refs), (faceDetector (models st)),
    (emotionDetector (models st)), (truthy (selectedImage st));
    split; reflexivity.
Qed.

(** C7 as stated fails: in the state reached by loading the models,
    choosing a file and clicking the button, a call of [detectEmotion] is
    suspended, and a second click changes nothing and reports nothing: the
    state stays as it is, no event is logged, and the status string stays
    null.  The handler itself, called in that state, does not refuse
    either: it starts a second call. *)
Lemma busy_click_reports_nothing :
  reachable busySys /\
  List.length (inflight busySys) = 1%nat /\
  step busySys (Click sampleRefs) = (busySys, []) /\
  prediction (ui (fst (step busySys (Click sampleRefs)))) = None /\
  failure_of_status (prediction (ui (fst (step busySys (Click sampleRefs)))))
  <> Some PipelineBusy /\
  present (snd (detectEmotion_start sampleRefs (ui busySys))) = true /\
  threw (snd (fst (detectEmotion_start sampleRefs (ui busySys)))) = false.
Proof.
  split; [unfold busySys; repeat apply reachable_step; apply reachable_initial|].
  split; [vm_compute; reflexivity|].
  split; [vm_compute; reflexivity|].
  split; [vm_compute; reflexivity|].
  split; [vm_compute; discriminate|].
  split; vm_compute; reflexivity.
Qed.

(** C7, amended: while a call of [detectEmotion] is suspended, in every
    state the component can reach, [isLoading] is on and the Detect button
    is disabled, so a click does not start a second call: the state and the
    suspended call stay as they are and nothing is logged.  There is never
    more than one suspended call.  No busy error is reported, and the
    handler itself makes no busy check: it starts in the same way whether
    [isLoading] is on or off. *)
Theorem click_ignored_while_in_flight (s : Sys) (refs : Refs) :
  reachable s ->
  inflight s <> [] ->
  isLoading (ui s) = true /\
  button_disabled (render (ui s)) = true /\
  button_label (render (ui s)) = "Processing...."%string /\
  step s (Click refs) = (s, []) /\
  (exists p, inflight s = [p]) /\
  failure_of_status (prediction (ui (fst (step s (Click refs)))))
  <> Some PipelineBusy /\
  snd (detectEmotion_start refs (ui s))
  = snd (detectEmotion_start refs (setIsLoading false (ui s))).
Proof.
  intros Hreach Hbusy.
  destruct (reachable_tracks s Hreach) as [[Hnil _] | (p & Hone & Hl)];
    [contradiction|].
  assert (Hdis : button_disabled (render (ui s)) = true).
  { simpl. rewrite Hl. now rewrite orb_true_r. }
  split; [exact Hl|]. split; [exact Hdis|].
  split; [simpl; now rewrite Hl|].
  split; [unfold step; now rewrite Hdis|].
  split; [eauto|].
  split; [|symmetry; apply start_ignores_loading].
  unfold step. rewrite Hdis. simpl.
  destruct (failure_of_status_cases (prediction (ui s))) as [H | [H | H]];
    rewrite H; discriminate.
Qed.

Lemma click_ignored_while_in_flight_witness :
  button_disabled (render (ui busySys)) = true /\
  step busySys (Click sampleRefs) = (busySys, []).
Proof.
  destruct (click_ignored_while_in_flight busySys sampleRefs)
    as (_ & H1 & _ & H2 & _).
  - unfold busySys. repeat apply reachable_step. apply reachable_initial.
  - vm_compute. discriminate.
  - split; [exact H1 | exact H2].
Defined.

(** ** Preprocessing *)

Section Resize.

Variables (old i : nat).
Hypothesis old_positive : (0 < old)%nat.
Hypothesis i_small : (i < 48)%nat.

Lemma sourceFrac_bounds :
  0 <= Tf.sourceFrac old 48 i /\
  Tf.sourceFrac old 48 i < inject_Z (Z.of_nat old).
Proof.
  assert (Ho : 1 <= inject_Z (Z.of_nat old)).
  { change 1 with (inject_Z 1). rewrite <- Zle_Qle. lia. }
  assert (Hi0 : 0 <= inject_Z (Z.of_nat i)).
  { change 0 with (inject_Z 0). rewrite <- Zle_Qle. lia. }
  assert (Hi : inject_Z (Z.of_nat i) <= 47).
  { change 47 with (inject_Z 47). rewrite <- Zle_Qle. lia. }
  assert (Hsrc : Tf.sourceFrac old 48 i
                 == inject_Z (Z.of_nat old) * inject_Z (Z.of_nat i) * (1 # 48)).
  { unfold Tf.sourceFrac, Qdiv.
    change (/ inject_Z (Z.of_nat 48)) with (1 # 48). ring. }
  rewrite Hsrc. split; nra.
Qed.

Lemma floor_index :
  (Z.to_nat (Z.max 0 (Qfloor (Tf.sourceFrac old 48 i))) < old)%nat.
Proof.
  destruct sourceFrac_bounds as [H0 Hlt].
  assert (Hf : (Qfloor (Tf.sourceFrac old 48 i) < Z.of_nat old)%Z).
  { rewrite Zlt_Qlt. eapply Qle_lt_trans; [apply Qfloor_le | exact Hlt]. }
  lia.
Qed.

Lemma ceil_index :
  (Z.to_nat (Z.min (Z.of_nat old - 1) (Qceiling (Tf.sourceFrac old 48 i)))
   < old)%nat.
Proof. lia. Qed.

End Resize.

Lemma fromPixels_at (img : ImageData) (r c k : nat) :
  Tf.at_ (Tf.fromPixels img) [r; c; k]
  = inject_Z (nth (4 * (r * width img + c) + k) (data img) 0%Z).
Proof. reflexivity. Qed.

(** The crop handed to the preprocessing chain is a square and is not
    empty. *)
Lemma crop_is_nonempty_square (lm : list (Q * Q)) (ctx : Context2D)
  (region : CropRegion) (faceData : ImageData) :
  cropRegion lm = inr region ->
  getImageData ctx region = inr faceData ->
  height faceData = width faceData /\ (0 < width faceData)%nat.
Proof.
  intros Hcrop Hget.
  assert (Hsq : sh region = sw region).
  { revert Hcrop. unfold cropRegion.
    destruct (landmark lm 2), (landmark lm 4), (landmark lm 5);
      try discriminate.
    intro H; inversion H; reflexivity. }
  revert Hget. unfold getImageData. rewrite Hsq.
  destruct (to_long (sx region)) as [? | x]; [discriminate|].
  destruct (to_long (sy region)) as [? | y]; [discriminate|].
  destruct (to_long (sw region)) as [? | w]; [discriminate|].
  destruct (w =? 0)%Z eqn:Hz; [discriminate|].
  simpl. intro H; inversion H; subst; simpl.
  apply Z.eqb_neq in Hz. split; [reflexivity | lia].
Qed.

(** * Further properties of the component *)

(** ** [detectEmotion]: guard, frame and early exits *)

Lemma guard_passes_inv (refs : Refs) (st : State) :
  guard_passes refs st = true ->
  truthy (selectedImage st) = true /\
  exists img fd ed,
    imageRef refs = Some img /\ faceDetector (models st) = Some fd /\
    emotionDetector (models st) = Some ed.
Proof.
  unfold guard_passes. intro H.
  apply andb_true_iff in H as [H Hed].
  apply andb_true_iff in H as [H Hfd].
  apply andb_true_iff in H as [Hsel Himg].
  destruct (imageRef refs) as [img|]; [|discriminate].
  destruct (faceDetector (models st)) as [fd|]; [|discriminate].
  destruct (emotionDetector (models st)) as [ed|]; [|discriminate].
  split; [exact Hsel | eauto 6].
Qed.

Lemma guard_fails_start (refs : Refs) (st : State) :
  guard_passes refs st = false ->
  detectEmotion_start refs st = (st, [], None).
Proof.
  unfold guard_passes, detectEmotion_start.
  destruct (imageRef refs), (faceDetector (models st)),
    (emotionDetector (models st)), (truthy (selectedImage st));
    simpl; try reflexivity; discriminate.
Qed.

(** When no image is selected, the image is not mounted or a model is
    missing, [detectEmotion] returns at once: the state is untouched (the
    loading flag is not even switched), nothing is called and nothing is
    logged. *)
Theorem detectEmotion_guard_noop (refs : Refs) (st : State) :
  guard_passes refs st = false ->
  detectEmotion_start refs st = (st, [], None) /\
  detectEmotion refs st = (st, []).
Proof.
  intro Hguard. pose proof (guard_fails_start refs st Hguard) as Hstart.
  split; [exact Hstart|]. unfold detectEmotion. now rewrite Hstart.
Qed.

Lemma detectEmotion_guard_noop_witness :
  detectEmotion sampleRefs initialState = (initialState, []).
Proof.
  refine (proj2 (detectEmotion_guard_noop sampleRefs initialState _)).
  vm_compute. reflexivity.
Defined.

Lemma start_frame (refs : Refs) (st st1 : State) (log1 : list Event)
  (p : option Pending) :
  detectEmotion_start refs st = (st1, log1, p) ->
  selectedImage st1 = selectedImage st /\ models st1 = models st.
Proof.
  unfold detectEmotion_start.
  destruct (imageRef refs), (faceDetector (models st)),
    (emotionDetector (models st)), (truthy (selectedImage st));
    try (intro H; inversion H; subst; now split).
  run_stretch; intro H; inversion H; subst; now split.
Qed.

Lemma resume_frame (p : Pending) (st st2 : State) (log2 : list Event)
  (p' : option Pending) :
  resume p st = (st2, log2, p') ->
  selectedImage st2 = selectedImage st /\ models st2 = models st.
Proof.
  destruct p; unfold resume; run_stretch; intro H; inversion H; subst;
    now split.
Qed.

Lemma start_loading_passed (refs : Refs) (st st1 : State)
  (log1 : list Event) (p : option Pending) :
  guard_passes refs st = true ->
  detectEmotion_start refs st = (st1, log1, p) ->
  isLoading st1 = present p.
Proof.
  intro Hg. destruct (guard_passes_inv _ _ Hg) as (Hsel & img & fd & ed & Hi & Hf & He).
  unfold detectEmotion_start. rewrite Hi, Hf, He, Hsel.
  run_stretch; intro H; inversion H; subst; reflexivity.
Qed.

(** A call of [detectEmotion] that gets past the guard always leaves the
    loading flag off, whichever way it ends, and no call ever changes the
    selected image or the models. *)
Theorem detectEmotion_frame (refs : Refs) (st : State) :
  selectedImage (fst (detectEmotion refs st)) = selectedImage st /\
  models (fst (detectEmotion refs st)) = models st /\
  isLoading (fst (detectEmotion refs st))
  = (if guard_passes refs st then false else isLoading st).
Proof.
  unfold detectEmotion.
  destruct (detectEmotion_start refs st) as [[st1 log1] p1] eqn:Hstart.
  destruct (start_frame _ _ _ _ _ Hstart) as [Hs1 Hm1].
  destruct (guard_passes refs st) eqn:Hg.
  - pose proof (start_loading_passed _ _ _ _ _ Hg Hstart) as Hl1.
    destruct p1 as [p1|]; simpl in *; [|now repeat split].
    destruct (resume p1 st1) as [[st2 log2] p2] eqn:Hres.
    destruct (resume_frame _ _ _ _ _ Hres) as [Hs2 Hm2].
    pose proof (resume_loading _ _ _ _ _ Hl1 Hres) as Hl2.
    destruct p2 as [p2|]; simpl in *.
    + destruct (resume p2 st2) as [[st3 log3] p3] eqn:Hres2.
      destruct (resume_frame _ _ _ _ _ Hres2) as [Hs3 Hm3].
      pose proof (resume_loading _ _ _ _ _ Hl2 Hres2) as Hl3.
      destruct (resume_suspended _ _ _ _ _ Hres) as (_ & _ & settled & ->).
      simpl. repeat split; try congruence.
      destruct p3 as [p3|]; [|exact Hl3].
      destruct (resume_suspended _ _ _ _ _ Hres2) as (_ & _ & s' & Hp3).
      revert Hres2. unfold resume. run_stretch; discriminate.
    + repeat split; congruence.
  - rewrite (guard_fails_start refs st Hg) in Hstart.
    inversion Hstart; subst. now repeat split.
Qed.

(** Past the guard, a missing canvas or a canvas without a 2D context makes
    [detectEmotion] return silently: apart from the loading flag being
    off, the state is as before (no status message is set) and nothing is
    called or logged. *)
Theorem missing_canvas_silent (refs : Refs) (st : State) :
  guard_passes refs st = true ->
  canvasRef refs = None \/ canvasRef refs = Some {| has_2d_context := false |} ->
  detectEmotion refs st = (setIsLoading false st, []).
Proof.
  intros Hg Hcanvas.
  destruct (guard_passes_inv _ _ Hg) as (Hsel & img & fd & ed & Hi & Hf & He).
  unfold detectEmotion, detectEmotion_start. rewrite Hi, Hf, He, Hsel.
  destruct Hcanvas as [Hc | Hc]; unfold in_try, untilFaces, bind, update,
    or_return, early_return; rewrite Hc; reflexivity.
Qed.

Lemma missing_canvas_silent_witness :
  detectEmotion {| imageRef := Some sampleImage; canvasRef := None |}
    (shownState (detectorReturning [frontalFace])
                (classifierReturning [sampleVector]))
  = (setIsLoading false
       (shownState (detectorReturning [frontalFace])
                   (classifierReturning [sampleVector])), []).
Proof.
  apply missing_canvas_silent.
  - vm_compute. reflexivity.
  - left. reflexivity.
Defined.

(** ** [detectEmotion]: the first face and its landmarks *)

(** A first face with fewer than six landmarks makes the landmark reads
    throw: the request ends in the [catch] block with a [TypeError], before
    any pixel of the face is read and before the classifier is called. *)
Theorem too_few_landmarks_fail (ctx : Context2D) (ed : EmotionDetector)
  (face : Face) (rest : list Face) (st : State) :
  (List.length (landmarks face) < 6)%nat ->
  cropRegion (landmarks face) = inl TypeError /\
  resume (AwaitFaces ctx ed (inr (face :: rest))) st
  = (caught st, [ConsoleError "Error detecting faces:" TypeError], None).
Proof.
  intro Hlen.
  assert (Hcrop : cropRegion (landmarks face) = inl TypeError).
  { unfold cropRegion, landmark.
    assert (H5 : nth_error (landmarks face) 5 = None)
      by (apply nth_error_None; lia).
    rewrite H5.
    destruct (nth_error (landmarks face) 2), (nth_error (landmarks face) 4);
      reflexivity. }
  split; [exact Hcrop|].
  rewrite resume_first_face, Hcrop. reflexivity.
Qed.

Lemma too_few_landmarks_fail_witness :
  resume (AwaitFaces
            {| canvas_width := 64; canvas_height := 48;
               bitmap := img_pixels sampleImage |}
            (classifierReturning [sampleVector]) (inr [profileFace]))
         (readyState (detectorReturning [profileFace])
                     (classifierReturning [sampleVector]))
  = (caught (readyState (detectorReturning [profileFace])
                        (classifierReturning [sampleVector])),
     [ConsoleError "Error detecting faces:" TypeError], None).
Proof.
  apply too_few_landmarks_fail. simpl. lia.
Defined.

(** ** [detectEmotion]: the classifier's answer *)

(** When the classifier's promise is rejected, or its array has no row,
    the request ends in the [catch] block: the status becomes "Error
    detecting faces" and the predictions held before are not replaced. *)
Theorem classifier_failure_keeps_state (settled : Exn + list (list Q))
  (st : State) :
  settled = inr [] \/ (exists e, settled = inl e) ->
  fst (fst (resume (AwaitArray settled) st)) = caught st /\
  snd (resume (AwaitArray settled) st) = None /\
  threw (snd (fst (resume (AwaitArray settled) st))) = true /\
  emotionPredictions (fst (fst (resume (AwaitArray settled) st)))
  = emotionPredictions st.
Proof.
  intros [-> | [e ->]]; repeat split.
Qed.

Lemma classifier_failure_keeps_state_witness :
  fst (fst (resume (AwaitArray (inr []))
              (shownState (detectorReturning [frontalFace])
                          (classifierReturning []))))
  = caught (shownState (detectorReturning [frontalFace])
                       (classifierReturning [])).
Proof.
  refine (proj1 (classifier_failure_keeps_state (inr []) _ _)).
  left. reflexivity.
Defined.



(** ** The displayed list *)

Lemma insertBy_sorted (x : EmotionPrediction) (l : list EmotionPrediction) :
  StronglySorted (fun a b => probability b <= probability a) l ->
  StronglySorted (fun a b => probability b <= probability a)
                 (insertBy byProbabilityDesc x l).
Proof.
  induction 1 as [| y l Hl IH Hy]; simpl.
  - constructor; constructor.
  - unfold byProbabilityDesc at 1.
    destruct (Qlt_le_dec 0 (probability y - probability x)) as [Hlt | Hle].
    + constructor; [exact IH|].
      rewrite Forall_forall in *. intros z Hz.
      apply (Permutation_in _ (insertBy_perm _ _ _)) in Hz.
      destruct Hz as [<- | Hz]; [lra | now apply Hy].
    + constructor; [now constructor|].
      constructor; [lra|].
      rewrite Forall_forall in *. intros z Hz.
      specialize (Hy z Hz). lra.
Qed.

Lemma sortBy_sorted (l : list EmotionPrediction) :
  StronglySorted (fun a b => probability b <= probability a)
                 (sortBy byProbabilityDesc l).
Proof.
  unfold sortBy. induction l as [| x l IH]; simpl; [constructor|].
  now apply insertBy_sorted.
Qed.

Lemma sortBy_of_sorted (l : list EmotionPrediction) :
  StronglySorted (fun a b => probability b <= probability a) l ->
  sortBy byProbabilityDesc l = l.
Proof.
  unfold sortBy. induction 1 as [| x l Hl IH Hx]; simpl; [reflexivity|].
  rewrite IH. destruct l as [| y l']; [reflexivity|]. simpl.
  inversion Hx as [| ? ? Hxy _]; subst.
  unfold byProbabilityDesc at 1.
  destruct (Qlt_le_dec 0 (probability y - probability x)); [lra | reflexivity].
Qed.

(** What is shown is exactly what passes the filter: every entry above the
    threshold appears once, no other entry appears, and the list is never
    longer than the predictions it was made from. *)
Theorem displayed_permutation (eps : list EmotionPrediction) :
  Permutation (displayed eps) (filter visible eps) /\
  (forall e, In e (displayed eps) <-> In e eps /\ 0.0001 < probability e) /\
  (List.length (displayed eps) <= List.length eps)%nat.
Proof.
  assert (Hperm : Permutation (displayed eps) (filter visible eps))
    by apply sortBy_perm.
  split; [exact Hperm|]. split.
  - intro e. rewrite <- visible_spec, <- filter_In. split; intro H.
    + exact (Permutation_in _ Hperm H).
    + exact (Permutation_in _ (Permutation_sym Hperm) H).
  - rewrite (Permutation_length Hperm). apply filter_length_le.
Qed.

(** Filtering and sorting a list that is already displayed changes
    nothing. *)
Theorem displayed_idempotent (eps : list EmotionPrediction) :
  displayed (displayed eps) = displayed eps.
Proof.
  unfold displayed at 1.
  assert (Hvis : filter visible (displayed eps) = displayed eps).
  { apply forallb_filter_id, forallb_forall. intros e He.
    apply (Permutation_in _ (sortBy_perm _ _)) in He.
    now apply filter_In in He. }
  rewrite Hvis. apply sortBy_of_sorted. apply sortBy_sorted.
Qed.

(** The first line of the ranking is the most probable class: its
    probability is at least the scaled value of every entry of the raw
    vector. *)
Theorem ranked_head_is_max (raw : list Q) (e : EmotionPrediction)
  (rest : list EmotionPrediction) :
  ranked raw = e :: rest ->
  forall i, (i < List.length raw)%nat -> nth i raw 0 * 100 <= probability e.
Proof.
  intros Hranked i Hi.
  rewrite ranked_by_index in Hranked.
  pose proof (ranking_sorted raw) as Hsorted.
  pose proof (ranking_members raw) as Hmem.
  destruct (ranking raw) as [| i0 idxs]; [discriminate|].
  simpl in Hranked. inversion Hranked; subst. clear Hranked.
  assert (H0 : 0.0001 < nth i0 raw 0 * 100)
    by (apply Hmem; now left).
  simpl.
  destruct (Qlt_le_dec 0.0001 (nth i raw 0 * 100)) as [Hvis | Hinv]; [|lra].
  assert (Hin : In i (i0 :: idxs)) by (apply Hmem; split; assumption).
  destruct Hin as [<- | Hin]; [lra|].
  inversion Hsorted as [| ? ? _ Hall]; subst.
  rewrite Forall_forall in Hall.
  exact (ahead_ge raw i0 i (Hall i Hin)).
Qed.

Lemma ranked_head_is_max_witness :
  nth 4 sampleVector 0 * 100
  <= probability {| emotion := Some "Happy"%string;
                    probability := 0.95 * 100 |}.
Proof.
  apply (ranked_head_is_max sampleVector
           {| emotion := Some "Happy"%string; probability := 0.95 * 100 |}
           (tl (ranked sampleVector))).
  - vm_compute. reflexivity.
  - simpl. lia.
Defined.

(** Nothing is listed exactly when every scaled probability is at most
    0.0001. *)
Theorem ranked_empty_iff (raw : list Q) :
  ranked raw = [] <->
  forall i, (i < List.length raw)%nat -> nth i raw 0 * 100 <= 0.0001.
Proof.
  rewrite ranked_by_index. pose proof (ranking_members raw) as Hmem.
  split.
  - intros Hnil i Hi.
    destruct (Qlt_le_dec 0.0001 (nth i raw 0 * 100)) as [Hvis | Hinv];
      [|exact Hinv].
    assert (Hin : In i (ranking raw)) by (apply Hmem; split; assumption).
    destruct (ranking raw); [contradiction | discriminate].
  - intro Hall. destruct (ranking raw) as [| i idxs]; [reflexivity|].
    assert (Hin : In i (i :: idxs)) by now left.
    apply Hmem in Hin as [Hi Hvis]. specialize (Hall i Hi). lra.
Qed.

Lemma emotions_NoDup : NoDup emotions.
Proof.
  unfold emotions.
  repeat (constructor; [simpl; intuition discriminate|]). constructor.
Qed.

Lemma glyph_of_label (i : nat) :
  (i < 7)%nat ->
  exists label g,
    nth_error emotions i = Some label /\ lookup label emotionEmojis = Some g.
Proof.
  intro Hi.
  do 7 (destruct i as [| i]; [do 2 eexists; split; reflexivity|]). lia.
Qed.

Lemma ahead_sorted_NoDup (raw : list Q) (l : list nat) :
  StronglySorted (ahead raw) l -> NoDup l.
Proof.
  induction 1 as [| i l Hl IH Hi]; constructor; [|exact IH].
  intro Hin. rewrite Forall_forall in Hi.
  destruct (Hi i Hin) as [H | [_ H]]; [lra | lia].
Qed.

(** For a classifier vector of at most seven entries, the React keys of
    the listed paragraphs (the labels) are all defined and pairwise
    distinct, and every label finds its glyph in the table. *)
Theorem ranked_keys_distinct (raw : list Q) :
  (List.length raw <= 7)%nat ->
  NoDup (map emotion (ranked raw)) /\
  forall e, In e (ranked raw) ->
    exists label g, emotion e = Some label /\ glyph e = Some g.
Proof.
  intro Hlen. rewrite ranked_by_index.
  pose proof (ranking_members raw) as Hmem.
  split.
  - rewrite map_map. apply NoDup_map_NoDup_ForallPairs.
    + intros i j Hi Hj Heq. simpl in Heq.
      apply Hmem in Hi as [Hi _].
      apply (proj1 (NoDup_nth_error emotions) emotions_NoDup); [|exact Heq].
      simpl. lia.
    + exact (ahead_sorted_NoDup raw _ (ranking_sorted raw)).
  - intros e He. apply in_map_iff in He as (i & <- & Hi).
    apply Hmem in Hi as [Hi _].
    destruct (glyph_of_label i) as (label & g & Hlabel & Hg); [lia|].
    exists label, g. unfold glyph. simpl. rewrite Hlabel. now split.
Qed.

Lemma ranked_keys_distinct_witness :
  NoDup (map emotion (ranked sampleVector)).
Proof.
  refine (proj1 (ranked_keys_distinct sampleVector _)). simpl. lia.
Defined.

Lemma Qfloor_unit (q : Q) : 0 <= q -> q < 1 -> Qfloor q = 0%Z.
Proof.
  intros H0 H1.
  pose proof (Qfloor_le q) as Hle. pose proof (Qlt_floor q) as Hlt.
  assert (Hup : (Qfloor q < 1)%Z).
  { rewrite Zlt_Qlt. eapply Qle_lt_trans; [exact Hle | exact H1]. }
  assert (Hlo : (0 < Qfloor q + 1)%Z).
  { rewrite Zlt_Qlt. eapply Qle_lt_trans; [exact H0 | exact Hlt]. }
  lia.
Qed.

(** The filter threshold is far below what two fraction digits can show:
    every prediction with a probability between 0.0001 and 0.005 is listed,
    and its percentage reads "0.00". *)
Theorem small_visible_prints_zero (e : EmotionPrediction) :
  0.0001 < probability e ->
  probability e < 0.005 ->
  visible e = true /\ toFixed2 (probability e) = "0.00"%string.
Proof.
  intros Hlo Hhi. split; [now apply visible_spec|].
  unfold toFixed2.
  destruct (Qlt_le_dec (probability e) 0) as [Hneg | _]; [lra|].
  rewrite (Qfloor_unit (probability e * 100 + (1 # 2))) by lra.
  reflexivity.
Qed.

Lemma small_visible_prints_zero_witness :
  visible {| emotion := Some "Fear"%string; probability := 0.00002 * 100 |}
  = true /\
  toFixed2 (0.00002 * 100) = "0.00"%string.
Proof.
  apply (small_visible_prints_zero
           {| emotion := Some "Fear"%string; probability := 0.00002 * 100 |});
    vm_compute; reflexivity.
Defined.

(** ** The crop *)



(** ** The preprocessing chain *)

Lemma imageTensor_at (faceData : ImageData) (i j : nat) :
  Tf.at_ (imageTensor faceData) [0; i; j; 0]%nat
  == (Tf.at_ (Tf.resizeBilinear (48, 48)%nat (Tf.fromPixels faceData)) [i; j; 0]%nat
      + Tf.at_ (Tf.resizeBilinear (48, 48)%nat (Tf.fromPixels faceData)) [i; j; 1]%nat
      + Tf.at_ (Tf.resizeBilinear (48, 48)%nat (Tf.fromPixels faceData)) [i; j; 2]%nat)
     * (1 # 3).
Proof.
  change (Tf.at_ (imageTensor faceData) [0; i; j; 0]%nat)
    with ((Tf.at_ (Tf.resizeBilinear (48, 48)%nat (Tf.fromPixels faceData)) [i; j; 0]%nat
           + (Tf.at_ (Tf.resizeBilinear (48, 48)%nat (Tf.fromPixels faceData)) [i; j; 1]%nat
              + (Tf.at_ (Tf.resizeBilinear (48, 48)%nat (Tf.fromPixels faceData)) [i; j; 2]%nat
                 + 0))) / inject_Z (Z.of_nat 3)).
  unfold Qdiv. change (/ inject_Z (Z.of_nat 3)) with (1 # 3). ring.
Qed.

Lemma resizeBilinear_ext (t1 t2 : Tf.Tensor) (h w ch : nat) (i j k : nat) :
  Tf.shape t1 = [h; w; ch] -> Tf.shape t2 = [h; w; ch] ->
  (0 < h)%nat -> (0 < w)%nat -> (i < 48)%nat -> (j < 48)%nat ->
  (forall r c, (r < h)%nat -> (c < w)%nat ->
               Tf.at_ t1 [r; c; k] == Tf.at_ t2 [r; c; k]) ->
  Tf.at_ (Tf.resizeBilinear (48%nat, 48%nat) t1) [i; j; k]
  == Tf.at_ (Tf.resizeBilinear (48%nat, 48%nat) t2) [i; j; k].
Proof.
  intros Hs1 Hs2 Hh Hw Hi Hj Hext.
  unfold Tf.resizeBilinear. rewrite Hs1, Hs2. cbn [Tf.at_].
  pose proof (floor_index h i Hh Hi) as Hrf.
  pose proof (ceil_index h i Hh Hi) as Hrc.
  pose proof (floor_index w j Hw Hj) as Hcf.
  pose proof (ceil_index w j Hw Hj) as Hcc.
  unfold Tf.lerp.
  rewrite !Hext by assumption.
  reflexivity.
Qed.

(** The alpha channel never reaches the classifier: two crops of the same
    size whose colour bytes agree give the same tensor values, whatever
    their alpha bytes are. *)
Theorem imageTensor_ignores_alpha (img1 img2 : ImageData) :
  width img1 = width img2 ->
  height img1 = height img2 ->
  (0 < width img1)%nat ->
  (0 < height img1)%nat ->
  (forall r c k : nat,
      (r < height img1)%nat -> (c < width img1)%nat -> (k < 3)%nat ->
      nth (4 * (r * width img1 + c) + k) (data img1) 0%Z
      = nth (4 * (r * width img1 + c) + k) (data img2) 0%Z) ->
  Tf.shape (imageTensor img1) = Tf.shape (imageTensor img2) /\
  forall i j : nat, (i < 48)%nat -> (j < 48)%nat ->
    Tf.at_ (imageTensor img1) [0; i; j; 0]%nat
    == Tf.at_ (imageTensor img2) [0; i; j; 0]%nat.
Proof.
  intros Hw Hh Hwpos Hhpos Hbytes. split; [reflexivity|].
  intros i j Hi Hj. rewrite !imageTensor_at.
  assert (Hres : forall k, (k < 3)%nat ->
            Tf.at_ (Tf.resizeBilinear (48, 48)%nat (Tf.fromPixels img1)) [i; j; k]
            == Tf.at_ (Tf.resizeBilinear (48, 48)%nat (Tf.fromPixels img2)) [i; j; k]).
  { intros k Hk.
    apply resizeBilinear_ext with (h := height img1) (w := width img1)
                                  (ch := 3%nat);
      try assumption; try reflexivity.
    - simpl. now rewrite Hw, Hh.
    - intros r c Hr Hc. rewrite !fromPixels_at, <- Hw.
      now rewrite (Hbytes r c k Hr Hc Hk). }
  rewrite !Hres by lia. reflexivity.
Qed.

Lemma imageTensor_ignores_alpha_witness :
  Tf.at_ (imageTensor flatCrop) [0; 10; 20; 0]%nat
  == Tf.at_ (imageTensor
               {| width := 2; height := 2;
                  data := [200; 200; 200; 0; 200; 200; 200; 17;
                           200; 200; 200; 99; 200; 200; 200; 128]%Z |})
            [0; 10; 20; 0]%nat.
Proof.
  refine (proj2 (imageTensor_ignores_alpha flatCrop
                   {| width := 2; height := 2;
                      data := [200; 200; 200; 0; 200; 200; 200; 17;
                               200; 200; 200; 99; 200; 200; 200; 128]%Z |}
                   eq_refl eq_refl _ _ _) 10%nat 20%nat _ _);
    try (simpl; lia).
  intros r c k Hr Hc Hk. simpl in Hr, Hc.
  assert (Hr' : r = 0%nat \/ r = 1%nat) by lia.
  assert (Hc' : c = 0%nat \/ c = 1%nat) by lia.
  assert (Hk' : k = 0%nat \/ k = 1%nat \/ k = 2%nat) by lia.
  destruct Hr' as [-> | ->], Hc' as [-> | ->], Hk' as [-> | [-> | ->]];
    reflexivity.
Defined.

(** ** Uploads *)

(** Without a file, with a read that fails, or with a result that is not a
    string, [handleImageUpload] leaves the whole state as it is: the image
    and the results on display stay. *)
Theorem upload_without_string_noop (file : option File) (st : State) :
  file = None \/
  (exists f, file = Some f /\
             (readAsDataURL f = None \/ readAsDataURL f = Some ResultOther)) ->
  handleImageUpload file st = st.
Proof.
  intros [-> | (f & -> & [H | H])]; unfold handleImageUpload;
    [reflexivity | now rewrite H | now rewrite H].
Qed.

Lemma upload_without_string_noop_witness :
  handleImageUpload None
    (shownState (detectorReturning [frontalFace])
                (classifierReturning [sampleVector]))
  = shownState (detectorReturning [frontalFace])
               (classifierReturning [sampleVector]).
Proof.
  apply upload_without_string_noop. left. reflexivity.
Defined.

(** An upload does not cancel a request that is under way.  When a new
    image is read while a call waits for the classifier, the call still
    writes its predictions when the classifier answers, and the view then
    shows the lines computed for the old image next to the new image. *)
Theorem upload_does_not_cancel (s : Sys) (f : File) (str : string)
  (row : list Q) (rows : list (list Q)) :
  inflight s = [AwaitArray (inr (row :: rows))] ->
  readAsDataURL f = Some (ResultString str) ->
  truthy (Some str) = true ->
  inflight (fst (step s (Upload (Some f)))) = inflight s /\
  selectedImage (ui (steps s [Upload (Some f); Settle 0])) = Some str /\
  emotionPredictions (ui (steps s [Upload (Some f); Settle 0]))
  = Some (emotionResults row) /\
  inflight (steps s [Upload (Some f); Settle 0]) = [] /\
  image_src (render (ui (steps s [Upload (Some f); Settle 0]))) = Some str /\
  result (render (ui (steps s [Upload (Some f); Settle 0])))
  = Some ("Face detected and emotion analyzed!"%string,
          Some (map line (ranked row))).
Proof.
  intros Hfl Hread Hstr.
  split; [reflexivity|].
  unfold steps. cbn [fold_left].
  unfold step at 2. cbn [ui inflight fst].
  unfold step. cbn [ui inflight fst]. rewrite Hfl. cbn [nth_error].
  rewrite resume_array. cbn [fst ui inflight].
  unfold handleImageUpload. rewrite Hread.
  repeat split.
  unfold render. cbn [image_src]. simpl selectedImage. now rewrite Hstr.
Qed.

Lemma upload_does_not_cancel_witness :
  selectedImage (ui (steps classifyingSys [Upload (Some otherFile); Settle 0]))
  = Some "data:image/png;base64,BBBB"%string /\
  emotionPredictions (ui (steps classifyingSys [Upload (Some otherFile); Settle 0]))
  = Some (emotionResults sampleVector).
Proof.
  destruct (upload_does_not_cancel classifyingSys otherFile
              "data:image/png;base64,BBBB" sampleVector [])
    as (_ & H1 & H2 & _).
  - vm_compute. reflexivity.
  - reflexivity.
  - reflexivity.
  - split; [exact H1 | exact H2].
Defined.

Lemma results_stay_cleared_witness :
  result (render (ui (steps (fst (step initialSys (Upload (Some sampleFile))))
                        [Settle 0; Upload None; Settle 3])))
  = None.
Proof.
  apply (results_stay_cleared initialSys sampleFile
           "data:image/png;base64,AAAA"); reflexivity.
Defined.

(** ** The component over time *)

(** In every state the component can reach, the Detect button is enabled
    exactly when an image is selected, both models are loaded and no
    request is under way. *)
Theorem button_enabled_iff (s : Sys) :
  reachable s ->
  (button_disabled (render (ui s)) = false <->
   truthy (selectedImage (ui s)) = true /\
   present (faceDetector (models (ui s))) = true /\
   present (emotionDetector (models (ui s))) = true /\
   inflight s = []).
Proof.
  intro Hreach. pose proof (reachable_tracks s Hreach) as Hinv.
  unfold render. cbn [button_disabled].
  destruct (truthy (selectedImage (ui s))),
    (present (faceDetector (models (ui s)))),
    (present (emotionDetector (models (ui s))));
    destruct Hinv as [[Hnil Hl] | (p & Hone & Hl)]; rewrite Hl; simpl;
    split; try discriminate; try tauto;
    try (intros (? & ? & ? & ?); congruence).
Qed.

Lemma button_enabled_iff_witness :
  button_disabled (render (ui idleSys)) = false.
Proof.
  apply (button_enabled_iff idleSys).
  - unfold idleSys. repeat apply reachable_step. apply reachable_initial.
  - repeat split.
Defined.

Lemma resume_array_final (settled : Exn + list (list Q)) (st : State) :
  snd (resume (AwaitArray settled) st) = None.
Proof.
  unfold resume. run_stretch; reflexivity.
Qed.

Lemma settle_single (s : Sys) (p : Pending) :
  inflight s = [p] ->
  fst (step s (Settle 0))
  = {| ui := fst (fst (resume p (ui s)));
       inflight := option_list (snd (resume p (ui s))) |}.
Proof.
  intro Hone. unfold step. rewrite Hone. cbn [nth_error].
  destruct (resume p (ui s)) as [[st log] p']. simpl.
  now rewrite app_nil_r.
Qed.

Lemma settle_idle (s : Sys) (n : nat) :
  inflight s = [] -> fst (step s (Settle n)) = s.
Proof.
  intro Hnil. unfold step. rewrite Hnil. now destruct n.
Qed.

(** A request that is under way ends after at most two of its promises
    have settled: no call is left suspended and the loading flag is off, so
    the button cannot stay blocked. *)
Theorem request_finishes (s : Sys) :
  reachable s ->
  inflight s <> [] ->
  inflight (steps s [Settle 0; Settle 0]) = [] /\
  isLoading (ui (steps s [Settle 0; Settle 0])) = false.
Proof.
  intros Hreach Hbusy.
  destruct (reachable_tracks s Hreach) as [[Hnil _] | (p & Hone & Hl)];
    [contradiction|].
  change (steps s [Settle 0; Settle 0])
    with (fst (step (fst (step s (Settle 0))) (Settle 0))).
  rewrite (settle_single s p Hone).
  destruct (resume p (ui s)) as [[st1 log1] p1] eqn:Hres.
  pose proof (resume_loading _ _ _ _ _ Hl Hres) as Hl1.
  cbn [fst snd].
  destruct p1 as [p1|]; cbn [option_list present] in *.
  - destruct (resume_suspended _ _ _ _ _ Hres) as (_ & _ & settled & ->).
    rewrite (settle_single _ (AwaitArray settled)) by reflexivity.
    cbn [ui inflight].
    pose proof (resume_array_final settled st1) as Hfinal.
    destruct (resume (AwaitArray settled) st1) as [[st2 log2] p2] eqn:Hres2.
    simpl in Hfinal. subst p2.
    pose proof (resume_loading _ _ _ _ _ Hl1 Hres2) as Hl2.
    now split.
  - rewrite settle_idle by reflexivity. now split.
Qed.

Lemma request_finishes_witness :
  inflight (steps busySys [Settle 0; Settle 0]) = [] /\
  isLoading (ui (steps busySys [Settle 0; Settle 0])) = false.
Proof.
  apply request_finishes.
  - unfold busySys. repeat apply reachable_step. apply reachable_initial.
  - vm_compute. discriminate.
Defined.

Lemma start_status (refs : Refs) (st st1 : State) (log1 : list Event)
  (p : option Pending) :
  known_status (prediction st) ->
  (prediction st = None -> emotionPredictions st = None) ->
  detectEmotion_start refs st = (st1, log1, p) ->
  known_status (prediction st1) /\
  (prediction st1 = None -> emotionPredictions st1 = None).
Proof.
  intros Hk Hn. unfold detectEmotion_start.
  destruct (imageRef refs), (faceDetector (models st)),
    (emotionDetector (models st)), (truthy (selectedImage st));
    try (intro H; inversion H; subst; now split).
  run_stretch; intro H; inversion H; subst; simpl;
    unfold known_status; split; auto; discriminate.
Qed.

Lemma resume_status (p : Pending) (st st2 : State) (log2 : list Event)
  (p' : option Pending) :
  known_status (prediction st) ->
  (prediction st = None -> emotionPredictions st = None) ->
  resume p st = (st2, log2, p') ->
  known_status (prediction st2) /\
  (prediction st2 = None -> emotionPredictions st2 = None).
Proof.
  intros Hk Hn.
  destruct p; unfold resume; run_stretch; intro H; inversion H; subst; simpl;
    unfold known_status; split; auto; discriminate.
Qed.

(** In every state the component can reach, the status string is null or
    one of the three messages of [detectEmotion], and predictions are never
    held without a status; so the result block is shown exactly when a
    status is set, and no predictions are ever held out of sight. *)
Theorem status_invariant (s : Sys) :
  reachable s ->
  known_status (prediction (ui s)) /\
  (prediction (ui s) = None -> emotionPredictions (ui s) = None) /\
  (result (render (ui s)) = None <-> prediction (ui s) = None).
Proof.
  intro Hreach.
  assert (Hinv : known_status (prediction (ui s)) /\
                 (prediction (ui s) = None -> emotionPredictions (ui s) = None)).
  { induction Hreach as [| s i _ [Hk Hn]].
    - split; [now left | reflexivity].
    - destruct i as [m | file | refs | n]; unfold step.
      + now split.
      + cbn [fst ui]. unfold handleImageUpload.
        destruct file as [f|]; [|now split].
        destruct (readAsDataURL f) as [[str|]|]; try now split.
        split; [now left | reflexivity].
      + destruct (button_disabled (render (ui s))); [now split|].
        destruct (detectEmotion_start refs (ui s)) as [[st log] p] eqn:Hstart.
        exact (start_status _ _ _ _ _ Hk Hn Hstart).
      + destruct (nth_error (inflight s) n) as [p|]; [|now split].
        destruct (resume p (ui s)) as [[st log] p'] eqn:Hres.
        exact (resume_status _ _ _ _ _ Hk Hn Hres). }
  destruct Hinv as [Hk Hn]. split; [exact Hk|]. split; [exact Hn|].
  unfold render. cbn [result].
  destruct Hk as [H | [H | [H | H]]]; rewrite H; simpl; split;
    try reflexivity; discriminate.
Qed.

Lemma status_invariant_witness :
  known_status (prediction (ui (steps busySys [Settle 0; Settle 0]))).
Proof.
  refine (proj1 (status_invariant (steps busySys [Settle 0; Settle 0]) _)).
  unfold steps, busySys. cbn [fold_left].
  repeat apply reachable_step. apply reachable_initial.
Defined.

(** ** Loading the models *)

(** [loadModels] stores the two handles together or not at all: when
    either load fails nothing is stored, and the second model is not even
    requested when the first load fails.  After a failed load in a state
    without models the Detect button stays disabled whatever image is
    uploaded, and [detectEmotion] does nothing. *)
Theorem failed_load_disables (blazeface_load : Exn + FaceDetector)
  (loadLayersModel : string -> Exn + EmotionDetector) (st : State)
  (file : option File) (refs : Refs) :
  models st = {| faceDetector := None; emotionDetector := None |} ->
  (exists e, blazeface_load = inl e) \/
  (exists e, loadLayersModel "model/model.json"%string = inl e) ->
  fst (loadModels blazeface_load loadLayersModel st) = st /\
  (exists e, In (ConsoleLoadError "Error loading models:" e)
                (snd (loadModels blazeface_load loadLayersModel st))) /\
  ((exists e, blazeface_load = inl e) ->
   forall path, ~ In (CallLoadLayersModel path)
                     (snd (loadModels blazeface_load loadLayersModel st))) /\
  button_disabled
    (render (handleImageUpload file
               (fst (loadModels blazeface_load loadLayersModel st)))) = true /\
  detectEmotion refs
    (handleImageUpload file (fst (loadModels blazeface_load loadLayersModel st)))
  = (handleImageUpload file st, []).
Proof.
  intros Hmodels Hfail.
  assert (Hst : fst (loadModels blazeface_load loadLayersModel st) = st).
  { unfold loadModels. destruct Hfail as [[e ->] | [e He]]; [reflexivity|].
    destruct blazeface_load; [reflexivity|]. now rewrite He. }
  assert (Hup : models (handleImageUpload file st) = models st).
  { unfold handleImageUpload. destruct file as [f|]; [|reflexivity].
    destruct (readAsDataURL f) as [[str|]|]; reflexivity. }
  split; [exact Hst|]. split; [|split; [|split]].
  - unfold loadModels. destruct Hfail as [[e ->] | [e He]].
    + exists e. simpl. auto.
    + destruct blazeface_load as [e' | fm]; [exists e'; simpl; auto|].
      rewrite He. exists e. simpl. auto.
  - intros [e ->] path. simpl. intuition discriminate.
  - rewrite Hst. unfold render. cbn [button_disabled].
    rewrite Hup, Hmodels. simpl. now rewrite orb_true_r.
  - rewrite Hst. unfold detectEmotion.
    rewrite guard_fails_start; [reflexivity|].
    unfold guard_passes. rewrite Hup, Hmodels. simpl.
    now rewrite andb_false_r.
Qed.

Lemma failed_load_disables_witness :
  fst (loadModels (inl (ModelError "network"))
                  (fun _ => inr (classifierReturning [sampleVector]))
                  initialState) = initialState /\
  button_disabled
    (render (handleImageUpload (Some sampleFile)
               (fst (loadModels (inl (ModelError "network"))
                       (fun _ => inr (classifierReturning [sampleVector]))
                       initialState)))) = true.
Proof.
  destruct (failed_load_disables (inl (ModelError "network"))
              (fun _ => inr (classifierReturning [sampleVector]))
              initialState (Some sampleFile) sampleRefs)
    as (H1 & _ & _ & H2 & _).
  - reflexivity.
  - left. eexists. reflexivity.
  - split; [exact H1 | exact H2].
Defined.

(** [loadModels] stores both handles exactly when both loads succeed;
    after it the two handles are both there or both missing as they were
    before, and no other state cell has changed. *)
Theorem loadModels_all_or_nothing (blazeface_load : Exn + FaceDetector)
  (loadLayersModel : string -> Exn + EmotionDetector) (st : State) :
  models st = {| faceDetector := None; emotionDetector := None |} ->
  (present (faceDetector
              (models (fst (loadModels blazeface_load loadLayersModel st))))
   = true <->
   exists faceModel emotionModel,
     blazeface_load = inr faceModel /\
     loadLayersModel "model/model.json"%string = inr emotionModel) /\
  present (faceDetector
             (models (fst (loadModels blazeface_load loadLayersModel st))))
  = present (emotionDetector
               (models (fst (loadModels blazeface_load loadLayersModel st)))) /\
  setModels (models st) (fst (loadModels blazeface_load loadLayersModel st))
  = st.
Proof.
  intro Hmodels. unfold loadModels.
  destruct blazeface_load as [e | faceModel].
  - simpl. rewrite Hmodels. simpl. repeat split.
    + discriminate.
    + intros (fm & em & H & _). discriminate.
    + destruct st; simpl in *. now subst.
  - destruct (loadLayersModel "model/model.json"%string) as [e | emotionModel].
    + simpl. rewrite Hmodels. simpl. repeat split.
      * discriminate.
      * intros (fm & em & _ & H). discriminate.
      * destruct st; simpl in *. now subst.
    + simpl. repeat split.
      * intros _. eauto.
      * now destruct st.
Qed.

Lemma loadModels_all_or_nothing_witness :
  present (faceDetector
             (models (fst (loadModels (inr (detectorReturning [frontalFace]))
                             (fun _ => inl (ModelError "404"))
                             initialState))))
  = present (emotionDetector
               (models (fst (loadModels (inr (detectorReturning [frontalFace]))
                               (fun _ => inl (ModelError "404"))
                               initialState)))).
Proof.
  refine (proj1 (proj2 (loadModels_all_or_nothing
                          (inr (detectorReturning [frontalFace]))
                          (fun _ => inl (ModelError "404"))
                          initialState _))).
  reflexivity.
Defined.

(** ** Vectors longer than the label table *)

(** An entry at index 7 or beyond that passes the filter is listed like
    any other, but without a label and without a glyph: its line shows
    only the percentage. *)
Theorem unlabelled_entry_listed (raw : list Q) (i : nat) :
  (7 <= i)%nat -> (i < List.length raw)%nat ->
  0.0001 < nth i raw 0 * 100 ->
  In (entry raw i) (ranked raw) /\
  emotion (entry raw i) = None /\
  glyph (entry raw i) = None /\
  In (None, toFixed2 (nth i raw 0 * 100)) (map line (ranked raw)).
Proof.
  intros Hi Hlen Hvis.
  assert (Hin : In (entry raw i) (ranked raw)).
  { rewrite ranked_by_index. apply in_map.
    apply ranking_members. split; assumption. }
  assert (Hlabel : emotion (entry raw i) = None)
    by (simpl; apply nth_error_None; simpl; lia).
  split; [exact Hin|]. split; [exact Hlabel|].
  split; [unfold glyph; now rewrite Hlabel|].
  apply in_map_iff. exists (entry raw i). split; [|exact Hin].
  unfold line. now rewrite Hlabel.
Qed.

Lemma unlabelled_entry_listed_witness :
  In (None, "20.00"%string) (map line (ranked longVector)).
Proof.
  refine (proj2 (proj2 (proj2 (unlabelled_entry_listed longVector 7 _ _ _))));
    try (simpl; lia); vm_compute; reflexivity.
Defined.

(** ** The cropped pixels *)

Lemma crop_is_nonempty_square_witness :
  match getImageData {| canvas_width := 64; canvas_height := 48;
                        bitmap := img_pixels sampleImage |}
                     {| sx := fst (P_n (landmarks frontalFace)) - half (landmarks frontalFace);
                        sy := snd (P_n (landmarks frontalFace)) - half (landmarks frontalFace);
                        sw := 2 * half (landmarks frontalFace);
                        sh := 2 * half (landmarks frontalFace) |}
  with
  | inr faceData => height faceData = width faceData /\ (0 < width faceData)%nat
  | inl _ => False
  end.
Proof.
  destruct (getImageData _ _) as [e | faceData] eqn:Hget.
  - vm_compute in Hget. discriminate.
  - exact (crop_is_nonempty_square (landmarks frontalFace) _ _ faceData
             eq_refl Hget).
Defined.

(** An image that is displayed with zero width or zero height makes the
    first [getImageData] throw: the request ends in the [catch] block
    before the localizer is called. *)
Theorem zero_size_image_fails (refs : Refs) (st : State)
  (img : HTMLImageElement) (canvas : HTMLCanvasElement) :
  guard_passes refs st = true ->
  imageRef refs = Some img ->
  canvasRef refs = Some canvas ->
  has_2d_context canvas = true ->
  img_width img = 0%nat \/ img_height img = 0%nat ->
  fst (detectEmotion refs st) = caught st /\
  ~ In CallEstimateFaces (snd (detectEmotion refs st)) /\
  threw (snd (detectEmotion refs st)) = true.
Proof.
  intros Hg Hi Hc H2d Hzero.
  destruct (guard_passes_inv _ _ Hg) as (Hsel & img' & fd & ed & Hi' & Hf & He).
  rewrite Hi in Hi'. inversion Hi'; subst img'. clear Hi'.
  unfold detectEmotion, detectEmotion_start. rewrite Hi, Hf, He, Hsel.
  unfold in_try, untilFaces, bind, update, or_return, ret, emit, lift,
    getContext.
  rewrite Hc, H2d. cbn [app].
  assert (Hthrow : exists e,
             getImageData
               {| canvas_width := img_width img;
                  canvas_height := img_height img;
                  bitmap := img_pixels img |}
               (wholeCanvas
                  {| canvas_width := img_width img;
                     canvas_height := img_height img;
                     bitmap := img_pixels img |})
             = inl e).
  { unfold getImageData, wholeCanvas.
    cbn [sx sy sw sh canvas_width canvas_height].
    change (to_long 0) with (@inr Exn Z 0%Z).
    destruct Hzero as [-> | ->];
      change (to_long (inject_Z (Z.of_nat 0))) with (@inr Exn Z 0%Z).
    - destruct (to_long (inject_Z (Z.of_nat (img_height img))));
        eexists; reflexivity.
    - destruct (to_long (inject_Z (Z.of_nat (img_width img)))) as [? | w];
        [eexists; reflexivity|].
      rewrite orb_true_r. eexists; reflexivity. }
  destruct Hthrow as [e Hthrow].
  rewrite Hthrow. simpl. repeat split.
  intuition discriminate.
Qed.

Lemma zero_size_image_fails_witness :
  fst (detectEmotion
         {| imageRef := Some {| img_width := 0; img_height := 0;
                                img_pixels := fun _ _ => transparent_black |};
            canvasRef := Some {| has_2d_context := true |} |}
         (readyState (detectorReturning [frontalFace])
                     (classifierReturning [sampleVector])))
  = caught (readyState (detectorReturning [frontalFace])
                       (classifierReturning [sampleVector])).
Proof.
  refine (proj1 (zero_size_image_fails
                   {| imageRef := Some {| img_width := 0; img_height := 0;
                                          img_pixels := fun _ _ => transparent_black |};
                      canvasRef := Some {| has_2d_context := true |} |}
                   (readyState (detectorReturning [frontalFace])
                               (classifierReturning [sampleVector]))
                   {| img_width := 0; img_height := 0;
                      img_pixels := fun _ _ => transparent_black |}
                   {| has_2d_context := true |}
                   _ eq_refl eq_refl eq_refl _)).
  - vm_compute. reflexivity.
  - left. reflexivity.
Defined.

(** ** Asking again *)

Lemma detectEmotion_writer (refs : Refs) (st1 st2 : State) :
  selectedImage st1 = selectedImage st2 ->
  models st1 = models st2 ->
  exists (W : State -> State) (log : list Event),
    detectEmotion refs st1 = (W st1, log) /\
    detectEmotion refs st2 = (W st2, log) /\
    (forall s, W (W s) = W s) /\
    (forall s, selectedImage (W s) = selectedImage s /\ models (W s) = models s).
Proof.
  intros Hsel Hmod.
  unfold detectEmotion, detectEmotion_start, resume.
  rewrite <- Hsel, <- Hmod.
  destruct (imageRef refs), (faceDetector (models st1)),
    (emotionDetector (models st1)), (truthy (selectedImage st1));
    try (exists (fun s => s), []; now repeat split).
  run_stretch;
    first
      [ exists (setIsLoading false); eexists; now repeat split
      | exists caught; eexists; now repeat split
      | exists (fun s => setIsLoading false
                           (setEmotionPredictions None
                              (setPrediction (Some "No faces detected"%string) s)));
        eexists; now repeat split
      | match goal with
        | |- context [emotionResults ?row] =>
            exists (fun s => setIsLoading false
                               (setPrediction
                                  (Some "Face detected and emotion analyzed!"%string)
                                  (setEmotionPredictions
                                     (Some (emotionResults row)) s)));
            eexists; now repeat split
        end ].
Qed.

(** What a call of [detectEmotion] does depends only on the refs, the
    selected image and the models, not on the results on display: asked
    again on the state it has left, it makes the same calls and leaves
    that state as it is. *)
Theorem detectEmotion_idempotent (refs : Refs) (st : State) :
  detectEmotion refs (fst (detectEmotion refs st))
  = (fst (detectEmotion refs st), snd (detectEmotion refs st)).
Proof.
  destruct (detectEmotion_writer refs st st eq_refl eq_refl)
    as (W0 & log0 & H0 & _ & _ & Hframe).
  destruct (Hframe st) as [Hsel Hmod].
  assert (Hfst : fst (detectEmotion refs st) = W0 st) by now rewrite H0.
  rewrite <- Hfst in Hsel, Hmod.
  destruct (detectEmotion_writer refs st (fst (detectEmotion refs st))
              (eq_sym Hsel) (eq_sym Hmod))
    as (W & log & H1 & H2 & Hidem & _).
  rewrite H2, H1. cbn [fst snd]. now rewrite Hidem.
Qed.

(** ** Binary64 *)

(** With binary64 arithmetic, whatever the raw vector holds, every listed
    entry compares above the threshold; in particular an entry whose
    probability is NaN is never listed. *)
Theorem binary64_never_lists_nan (raw : list float) :
  Forall (fun e => (0.0001 <? Binary64.percent e)%float = true /\
                   Binary64.percent e <> nan)
         (Binary64.ranked raw).
Proof.
  pose proof (binary64_ranked_visible raw) as Hvis.
  rewrite Forall_forall in *. intros e He.
  specialize (Hvis e He). split; [exact Hvis|].
  intro Hnan. rewrite Hnan in Hvis. vm_compute in Hvis. discriminate.
Qed.
